(** * Safe-mode bootstrap guard of FreeCAD: [src/App/SafeMode.cpp]

    A shallow embedding of the translation unit and of the part of its
    surroundings it talks to: the application's configuration map, the
    file system below the marker path and the scratch directory, the wall
    clock, Qt's text conversions and diagnostic channel, and the one
    process-global pointer [tempDir].

    The C++ functions keep their names.  Every function is a computation
    in a small state-and-failure monad [M] over [World]; the only failure
    is undefined behaviour of the C++ abstract machine (dereferencing or
    deleting a pointer that does not point to a live object). *)

From Stdlib Require Import ZArith NArith String Ascii List Bool Lia.
From stdpp Require Import base option gmap strings list fin_maps.

Local Open Scope Z_scope.

(** ** The world the translation unit runs in *)

(** A [QDateTime] is a number of milliseconds since the epoch, or invalid. *)
Definition QDateTime := option Z.

(** [QDateTime::secsTo]: whole seconds from [this] to [other], the
    millisecond difference truncated towards zero; 0 when either side is
    invalid. *)
Definition secsTo (this other : QDateTime) : Z :=
  match this, other with
  | Some t, Some o => Z.quot (o - t) 1000
  | _, _ => 0
  end.

(** A [QString] is a sequence of code units. *)
Definition QString := list N.

Fixpoint QString_eqb (a b : QString) : bool :=
  match a, b with
  | [], [] => true
  | x :: a', y :: b' => N.eqb x y && QString_eqb a' b'
  | _, _ => false
  end.

(** What a [QTextStream] does to the text it has decoded from a device
    opened with [QIODevice::Text]: every carriage return is dropped. *)
Definition remove_CR (q : QString) : QString :=
  List.filter (fun u => negb (N.eqb u 13)) q.

(** Qt's text conversions.  Which codec a [QTextStream] uses is decided by
    the Qt version and the locale, not by the translation unit, so the
    conversions are parameters of the embedding:
    - [toUnicode]: what a reading [QTextStream] makes of the bytes of a
      file (detection of a byte-order mark included), before carriage
      returns are dropped;
    - [fromUnicode]: the bytes a writing [QTextStream] produces;
    - [fromStdString]: [QString::fromStdString]. *)
Record TextCodec := {
  toUnicode : string -> QString;
  fromUnicode : QString -> string;
  fromStdString : string -> QString
}.

(** What a path names on disk; a file holds bytes. *)
Inductive node :=
  | File (lastModified : Z) (content : string)
  | Dir (lastModified : Z).

Definition node_lastModified (n : node) : Z :=
  match n with
  | File t _ => t
  | Dir t => t
  end.

(** The heap object behind [tempDir].  An invalid [QTemporaryDir] has the
    empty path and owns nothing on disk. *)
Record QTemporaryDir := { isValid : bool; path : string }.

(** A C++ pointer to a [QTemporaryDir]: null, pointing to a live object,
    or left over from a [delete] (its object is gone, its bits are not
    null). *)
Inductive pointer :=
  | nullptr
  | live (obj : QTemporaryDir)
  | dangling.

(** The part of the environment that stays as it is. *)
Record Env := {
  TempLocation : string;        (* QStandardPaths::writableLocation(TempLocation) *)
  may_read : string -> bool;    (* QFile::open(ReadOnly) is permitted *)
  may_write : string -> bool;   (* QFile::open(WriteOnly) is permitted *)
  stored : string -> string -> string;
                                (* of the bytes written to an open file, those that reach the disk *)
  may_remove : string -> bool;  (* QFile::remove is permitted *)
  may_mkdir : string -> bool    (* QDir::mkpath can create the directory *)
}.

Record World := {
  env : Env;
  Config : gmap string string;            (* App::GetApplication().Config() *)
  tempDir : pointer;                      (* static QTemporaryDir * tempDir *)
  fs : gmap string node;                  (* the disk *)
  clock : Z;                              (* the wall clock now, in ms *)
  passing : list Z;                       (* the time that passes after each coming
                                             look at the clock *)
  temp_supply : list (option string);     (* outcomes of the coming QTemporaryDir() *)
  diagnostics : list string;              (* lines written through qWarning() *)
  mkpath_calls : list (string * bool);    (* history of QDir::mkpath: path, result *)
  creations : list bool                   (* history of QTemporaryDir(): valid or not *)
}.

Definition set_Config (c : gmap string string) (w : World) : World :=
  {| env := env w; Config := c; tempDir := tempDir w; fs := fs w;
     clock := clock w; passing := passing w; temp_supply := temp_supply w;
     diagnostics := diagnostics w; mkpath_calls := mkpath_calls w;
     creations := creations w |}.

Definition set_tempDir (p : pointer) (w : World) : World :=
  {| env := env w; Config := Config w; tempDir := p; fs := fs w;
     clock := clock w; passing := passing w; temp_supply := temp_supply w;
     diagnostics := diagnostics w; mkpath_calls := mkpath_calls w;
     creations := creations w |}.

Definition set_fs (d : gmap string node) (w : World) : World :=
  {| env := env w; Config := Config w; tempDir := tempDir w; fs := d;
     clock := clock w; passing := passing w; temp_supply := temp_supply w;
     diagnostics := diagnostics w; mkpath_calls := mkpath_calls w;
     creations := creations w |}.

Definition set_clock (t : Z) (w : World) : World :=
  {| env := env w; Config := Config w; tempDir := tempDir w; fs := fs w;
     clock := t; passing := passing w; temp_supply := temp_supply w;
     diagnostics := diagnostics w; mkpath_calls := mkpath_calls w;
     creations := creations w |}.

Definition set_passing (l : list Z) (w : World) : World :=
  {| env := env w; Config := Config w; tempDir := tempDir w; fs := fs w;
     clock := clock w; passing := l; temp_supply := temp_supply w;
     diagnostics := diagnostics w; mkpath_calls := mkpath_calls w;
     creations := creations w |}.

Definition set_temp_supply (l : list (option string)) (w : World) : World :=
  {| env := env w; Config := Config w; tempDir := tempDir w; fs := fs w;
     clock := clock w; passing := passing w; temp_supply := l;
     diagnostics := diagnostics w; mkpath_calls := mkpath_calls w;
     creations := creations w |}.

Definition set_diagnostics (l : list string) (w : World) : World :=
  {| env := env w; Config := Config w; tempDir := tempDir w; fs := fs w;
     clock := clock w; passing := passing w; temp_supply := temp_supply w;
     diagnostics := l; mkpath_calls := mkpath_calls w;
     creations := creations w |}.

Definition set_mkpath_calls (l : list (string * bool)) (w : World) : World :=
  {| env := env w; Config := Config w; tempDir := tempDir w; fs := fs w;
     clock := clock w; passing := passing w; temp_supply := temp_supply w;
     diagnostics := diagnostics w; mkpath_calls := l;
     creations := creations w |}.

Definition set_creations (l : list bool) (w : World) : World :=
  {| env := env w; Config := Config w; tempDir := tempDir w; fs := fs w;
     clock := clock w; passing := passing w; temp_supply := temp_supply w;
     diagnostics := diagnostics w; mkpath_calls := mkpath_calls w;
     creations := l |}.

(** Time passes: by the next amount the environment has in store, not at
    all when it has none. *)
Definition tick (w : World) : World :=
  match passing w with
  | [] => w
  | d :: rest => set_passing rest (set_clock (clock w + d) w)
  end.

(** ** The monad *)

Inductive result (A : Type) :=
  | Ok (a : A) (w : World)
  | Undefined.
Arguments Ok {A} a w.
Arguments Undefined {A}.

Definition M (A : Type) := World -> result A.

Definition ret {A} (a : A) : M A := fun w => Ok a w.

Definition bind {A B} (m : M A) (k : A -> M B) : M B :=
  fun w => match m w with
           | Ok a w' => k a w'
           | Undefined => Undefined
           end.

Notation "'let*' x ':=' m 'in' k" := (bind m (fun x => k))
  (at level 10, x name, m at level 100, k at level 200).
Notation "m '>>' k" := (bind m (fun _ => k))
  (at level 90, right associativity).

Fixpoint for_each {A} (l : list A) (body : A -> M unit) : M unit :=
  match l with
  | [] => ret tt
  | x :: l' => body x >> for_each l' body
  end.

(** ** The library calls the code makes *)

Module Qt.

(** [QStandardPaths::writableLocation(QStandardPaths::TempLocation)] *)
Definition writableLocation_TempLocation : M string :=
  fun w => Ok (TempLocation (env w)) w.

(** [QDateTime::currentDateTime()]: a look at the wall clock, after which
    time goes on. *)
Definition currentDateTime : M QDateTime :=
  fun w => Ok (Some (clock w)) (tick w).

(** [QFileInfo(p).exists()]: anything at all at that path. *)
Definition QFileInfo_exists (p : string) : M bool :=
  fun w => Ok (if fs w !! p is Some _ then true else false) w.

(** [QFileInfo(p).lastModified()]: invalid when nothing is there. *)
Definition QFileInfo_lastModified (p : string) : M QDateTime :=
  fun w => Ok (node_lastModified <$> fs w !! p) w.

(** [QFile(p).open(ReadOnly | Text)] followed by [QTextStream::readAll]:
    the bytes of a regular file the process may read, decoded by the
    stream and, the device being in text mode, freed of carriage returns;
    [None] when the open fails. *)
Definition QFile_open_ReadOnly_readAll (codec : TextCodec) (p : string)
    : M (option QString) :=
  fun w => match fs w !! p with
           | Some (File _ bytes) =>
               if may_read (env w) p
               then Ok (Some (remove_CR (toUnicode codec bytes))) w
               else Ok None w
           | _ => Ok None w
           end.

(** [QFile(p).open(WriteOnly)]: creates or truncates a regular file; fails
    on a directory and when permission is refused. *)
Definition QFile_open_WriteOnly (p : string) : M bool :=
  fun w => match fs w !! p with
           | Some (Dir _) => Ok false w
           | _ =>
               if may_write (env w) p
               then Ok true (set_fs (<[p := File (clock w) ""]> (fs w)) w)
               else Ok false w
           end.

(** [QTextStream(&file) << text] on a file opened by [QFile_open_WriteOnly]
    (not in text mode), flushed when the stream and the file go out of
    scope.  The stream reports no failure to the caller: the file holds
    whatever part of the bytes reached the disk, from all to none. *)
Definition QTextStream_write (codec : TextCodec) (p : string) (text : QString)
    : M unit :=
  fun w =>
    Ok tt (set_fs (<[p := File (clock w)
                            (stored (env w) p (fromUnicode codec text))]> (fs w)) w).

(** [QFile(p).remove()] *)
Definition QFile_remove (p : string) : M bool :=
  fun w => match fs w !! p with
           | Some (File _ _) =>
               if may_remove (env w) p
               then Ok true (set_fs (delete p (fs w)) w)
               else Ok false w
           | _ => Ok false w
           end.

(** [QDir().mkpath(p)]: true when the directory is there afterwards. *)
Definition QDir_mkpath (p : string) : M bool :=
  fun w =>
    let r := match fs w !! p with
             | Some (Dir _) => (true, fs w)
             | Some (File _ _) => (false, fs w)
             | None =>
                 if may_mkdir (env w) p
                 then (true, <[p := Dir (clock w)]> (fs w))
                 else (false, fs w)
             end in
    Ok r.1 (set_mkpath_calls (mkpath_calls w ++ [(p, r.1)]) (set_fs r.2 w)).

(** [qWarning() << msg] *)
Definition qWarning (msg : string) : M unit :=
  fun w => Ok tt (set_diagnostics (diagnostics w ++ [msg]) w).

End Qt.

(** [m[k]] on a [std::map<std::string, std::string>]: an absent key is
    first inserted with the empty string. *)
Definition map_index (k : string) : M string :=
  fun w => match Config w !! k with
           | Some v => Ok v w
           | None => Ok "" (set_Config (<[k := ""]> (Config w)) w)
           end.

(** [m.count(k)] as a truth value. *)
Definition map_count (k : string) : M bool :=
  fun w => Ok (if Config w !! k is Some _ then true else false) w.

(** [m[k] = v] *)
Definition map_assign (k v : string) : M unit :=
  fun w => Ok tt (set_Config (<[k := v]> (Config w)) w).

(** ** Concrete worlds *)

Module Scenario.

(** A codec for the concrete worlds: every byte is one code unit.  On the
    texts used below, which are plain ASCII without a byte-order mark, that
    is what UTF-8 and the single-byte locale codecs all do. *)
Definition units (s : string) : QString :=
  List.map N_of_ascii (list_ascii_of_string s).

Definition bytes (q : QString) : string :=
  string_of_list_ascii (List.map ascii_of_N q).

Definition latin1 : TextCodec :=
  {| toUnicode := units; fromUnicode := bytes; fromStdString := units |}.

(** A workstation on which everything is permitted. *)
Definition permissive : Env :=
  {| TempLocation := "/tmp";
     may_read := fun _ => true; may_write := fun _ => true;
     stored := fun _ bytes => bytes;
     may_remove := fun _ => true; may_mkdir := fun _ => true |}.

(** The same, except that no directory can be created. *)
Definition no_mkdir : Env :=
  {| TempLocation := "/tmp";
     may_read := fun _ => true; may_write := fun _ => true;
     stored := fun _ bytes => bytes;
     may_remove := fun _ => true; may_mkdir := fun _ => false |}.

(** The same as [permissive], except that the disk is full: files can be
    created but nothing written to them arrives. *)
Definition disk_full : Env :=
  {| TempLocation := "/tmp";
     may_read := fun _ => true; may_write := fun _ => true;
     stored := fun _ _ => "";
     may_remove := fun _ => true; may_mkdir := fun _ => true |}.

Definition build : gmap string string :=
  {[ "BuildRevision" := "1.0";
     "BuildRevisionBranch" := "main";
     "BuildRevisionHash" := "cafef00d" ]}.

(** A world at process start: no scratch root, nothing said, nothing
    asked; the clock stands still unless told otherwise. *)
Definition start (e : Env) (c : gmap string string) (disk : gmap string node)
    (supply : list (option string)) : World :=
  {| env := e; Config := c; tempDir := nullptr; fs := disk;
     clock := 1700000000000; passing := [];
     temp_supply := supply; diagnostics := []; mkpath_calls := [];
     creations := [] |}.

Definition marker : string := "/tmp/FREECAD_BOOT_NOT_COMPLETE".
Definition scratch : string := "/tmp/FreeCAD-Xa81Qz".

(** No marker on disk. *)
Definition clean : World := start permissive build ∅ [Some scratch].

(** No marker on disk, and temporary directories run out after the first. *)
Definition one_scratch_only : World :=
  start permissive build ∅ [Some scratch; None].

(** No marker on disk, and no temporary directory to be had. *)
Definition no_scratch : World := start permissive build ∅ [None].

(** No marker on disk, and directories cannot be created below the scratch
    root. *)
Definition mkdir_refused : World := start no_mkdir build ∅ [Some scratch].

(** No marker on disk, and a full disk. *)
Definition full : World := start disk_full build ∅ [Some scratch].

(** A marker of this build, written exactly twelve hours ago. *)
Definition twelve_hours_old : World :=
  start permissive build
    {[ marker := File (1700000000000 - 12 * 3600 * 1000) "1.0 main cafef00d" ]}
    [Some scratch].

(** A marker written twelve hours and 999 milliseconds ago, holding the
    build identity of this build followed by a carriage return. *)
Definition late_with_CR : World :=
  start permissive build
    {[ marker := File (1700000000000 - 12 * 3600 * 1000 - 999)
                      ("1.0 main cafef00d" +:+ String "013"%char "") ]}
    [Some scratch].

(** The same marker as in [twelve_hours_old], 999 milliseconds on; after
    the next look at the clock 200 milliseconds pass. *)
Definition at_the_threshold : World :=
  {| env := permissive; Config := build; tempDir := nullptr;
     fs := {[ marker := File (1700000000000 - 12 * 3600 * 1000 - 999)
                             "1.0 main cafef00d" ]};
     clock := 1700000000000; passing := [200];
     temp_supply := [Some scratch]; diagnostics := []; mkpath_calls := [];
     creations := [] |}.

(** A marker of this build, written a minute ago. *)
Definition crashed : World :=
  start permissive build
    {[ marker := File (1700000000000 - 60000) "1.0 main cafef00d" ]}
    [Some scratch].

(** A marker of this build, written a day ago. *)
Definition stale : World :=
  start permissive build
    {[ marker := File (1700000000000 - 24 * 3600 * 1000) "1.0 main cafef00d" ]}
    [Some scratch].

(** A marker of another build, written a minute ago. *)
Definition other_build : World :=
  start permissive build
    {[ marker := File (1700000000000 - 60000) "9.9.9 main deadbeef" ]}
    [Some scratch].

(** A configuration without [BuildRevision]. *)
Definition anonymous_build : World := start permissive ∅ ∅ [Some scratch].

(** Safe mode is on, the rebinder has not run yet. *)
Definition provisioned_only : World :=
  {| env := no_mkdir; Config := build;
     tempDir := live {| isValid := true; path := scratch |};
     fs := {[ scratch := Dir 1700000000000 ]};
     clock := 1700000000000; passing := [];
     temp_supply := []; diagnostics := []; mkpath_calls := [];
     creations := [true] |}.

End Scenario.

(** ** Objects on the heap *)

(** Is [p] the directory [root] or a path below it?  The second argument is
    the separator. *)
Definition in_tree (root sep p : string) : bool :=
  String.eqb p root || String.prefix (root +:+ sep) p.

Section SafeMode.

(** [PATHSEP] of [FCConfig.h], the platform's path separator. *)
Variable PATHSEP : string.

(** The text conversions of the Qt the program is linked against. *)
Variable codec : TextCodec.

(** [new QTemporaryDir()]: the system hands out a fresh directory, or none;
    the object is valid exactly when it got one. *)
Definition new_QTemporaryDir : M QTemporaryDir :=
  fun w =>
    match temp_supply w with
    | Some root :: rest =>
        Ok {| isValid := true; path := root |}
           (set_creations (creations w ++ [true])
              (set_temp_supply rest
                 (set_fs (<[root := Dir (clock w)]> (fs w)) w)))
    | None :: rest =>
        Ok {| isValid := false; path := "" |}
           (set_creations (creations w ++ [false]) (set_temp_supply rest w))
    | [] =>
        Ok {| isValid := false; path := "" |}
           (set_creations (creations w ++ [false]) w)
    end.

(** [~QTemporaryDir()]: a valid directory is removed with all it holds. *)
Definition destroy_QTemporaryDir (d : QTemporaryDir) : M unit :=
  fun w =>
    if isValid d
    then Ok tt (set_fs (filter (fun kv => in_tree (path d) PATHSEP kv.1 = false)
                               (fs w)) w)
    else Ok tt w.

(** [delete tempDir;] leaves the pointer as it is: after a live object has
    been deleted the pointer dangles.  Deleting the null pointer does
    nothing; deleting a dangling pointer is undefined. *)
Definition delete_tempDir : M unit :=
  fun w =>
    match tempDir w with
    | nullptr => Ok tt w
    | live d => (destroy_QTemporaryDir d >> fun w' => Ok tt (set_tempDir dangling w')) w
    | dangling => Undefined
    end.

(** [tempDir = p;] *)
Definition assign_tempDir (p : pointer) : M unit :=
  fun w => Ok tt (set_tempDir p w).

(** [tempDir->isValid()], [tempDir->path()]: undefined unless the pointer
    points to a live object. *)
Definition tempDir_isValid : M bool :=
  fun w => match tempDir w with
           | live d => Ok (isValid d) w
           | _ => Undefined
           end.

Definition tempDir_path : M string :=
  fun w => match tempDir w with
           | live d => Ok (path d) w
           | _ => Undefined
           end.

(** [tempDir] converted to [bool]: a pointer is true when it is not null,
    and a dangling pointer is not null. *)
Definition tempDir_to_bool : M bool :=
  fun w => match tempDir w with
           | nullptr => Ok false w
           | _ => Ok true w
           end.

(** ** The translation unit *)

Definition _getBootFailDetectionFileName : M string :=
  let* staticTempDir := Qt.writableLocation_TempLocation in
  ret ((staticTempDir +:+ PATHSEP) +:+ "FREECAD_BOOT_NOT_COMPLETE").

Definition _bootFileContent : M string :=
  let* fileContent := map_index "BuildRevision" in
  let* hasBranch := map_count "BuildRevisionBranch" in
  let* fileContent :=
    (if hasBranch
     then let* branch := map_index "BuildRevisionBranch" in
          ret (fileContent +:+ (" " +:+ branch))
     else ret fileContent) in
  let* hasHash := map_count "BuildRevisionHash" in
  let* fileContent :=
    (if hasHash
     then let* hash := map_index "BuildRevisionHash" in
          ret (fileContent +:+ (" " +:+ hash))
     else ret fileContent) in
  ret fileContent.

Definition secondsPerHour : Z := 3600.

Definition _didBootFailRecently : M bool :=
  let* filename := _getBootFailDetectionFileName in
  let* exists_ := Qt.QFileInfo_exists filename in
  if negb exists_ then ret false else
  let* currentTime := Qt.currentDateTime in
  let* fileLastModified := Qt.QFileInfo_lastModified filename in
  let timeDifference := secsTo fileLastModified currentTime in
  if timeDifference >? 12 * secondsPerHour then ret false else
  let* opened := Qt.QFile_open_ReadOnly_readAll codec filename in
  match opened with
  | None => ret false
  | Some content =>
      let* expected := _bootFileContent in
      if negb (QString_eqb content (fromStdString codec expected))
      then ret false else
      ret true
  end.

Definition _createTemporaryBaseDir : M bool :=
  let* d := new_QTemporaryDir in
  assign_tempDir (live d) >>
  let* valid := tempDir_isValid in
  (if negb valid
   then delete_tempDir >> assign_tempDir nullptr
   else ret tt) >>
  tempDir_to_bool.

Definition _createBootFile : M unit :=
  let* bootFilePath := _getBootFailDetectionFileName in
  let* opened := Qt.QFile_open_WriteOnly bootFilePath in
  if negb opened then ret tt else
  let* text := _bootFileContent in
  Qt.QTextStream_write codec bootFilePath (fromStdString codec text).

Definition dirs : list string :=
  [ "UserAppData";
    "UserConfigPath";
    "UserCachePath";
    "AppTempPath";
    "UserMacroPath";
    "UserHomePath" ].

Definition _replaceDirs : M unit :=
  let* temp_base := tempDir_path in
  for_each dirs (fun d =>
    let path := ((temp_base +:+ PATHSEP) +:+ d) +:+ PATHSEP in
    Qt.QDir_mkpath path >>
    map_assign d path).

Definition BootUpComplete : M unit :=
  let* bootFilePath := _getBootFailDetectionFileName in
  Qt.QFile_remove bootFilePath >>
  ret tt.

Definition InitializeSafeMode (forceSafeMode : bool) : M unit :=
  let* bootFailedPreviously := _didBootFailRecently in
  _createBootFile >>
  if bootFailedPreviously || forceSafeMode then
    let* created := _createTemporaryBaseDir in
    if created then
      (if bootFailedPreviously
       then Qt.qWarning "Failed boot detected, entering safe mode!"
       else ret tt) >>
      _replaceDirs
    else ret tt
  else ret tt.

Definition SafeModeEnabled : M bool := tempDir_to_bool.

Definition Destruct : M unit := delete_tempDir.

(** ** Sequences of calls to the public operations *)

Inductive call :=
  | CInitializeSafeMode (forceSafeMode : bool)
  | CBootUpComplete
  | CSafeModeEnabled
  | CDestruct.

(** One call; the answer of [SafeModeEnabled] is what the host observes. *)
Definition exec (c : call) : M (list bool) :=
  match c with
  | CInitializeSafeMode force => InitializeSafeMode force >> ret []
  | CBootUpComplete => BootUpComplete >> ret []
  | CSafeModeEnabled => let* b := SafeModeEnabled in ret [b]
  | CDestruct => Destruct >> ret []
  end.

(** A sequence of calls, with the answers of [SafeModeEnabled] in order. *)
Fixpoint run (cs : list call) : M (list bool) :=
  match cs with
  | [] => ret []
  | c :: cs' =>
      let* a := exec c in
      let* rest := run cs' in
      ret (a ++ rest)
  end.

Definition is_Initialize (c : call) : bool :=
  match c with CInitializeSafeMode _ => true | _ => false end.

Definition is_Destruct (c : call) : bool :=
  match c with CDestruct => true | _ => false end.

(** Once an answer is [true], all later answers are. *)
Fixpoint sticky (answers : list bool) : bool :=
  match answers with
  | [] => true
  | true :: rest => forallb id rest
  | false :: rest => sticky rest
  end.

(** ** Vocabulary of the statements *)

(** The path [_getBootFailDetectionFileName] computes. *)
Definition marker_path (w : World) : string :=
  (TempLocation (env w) +:+ PATHSEP) +:+ "FREECAD_BOOT_NOT_COMPLETE".

(** The path the rebinder stores under the profile key [d]. *)
Definition profile_path (root d : string) : string :=
  ((root +:+ PATHSEP) +:+ d) +:+ PATHSEP.

(** The build identity in the words of the specification: the value of
    [BuildRevision] (empty when absent), then a space and the branch when
    [BuildRevisionBranch] is present, then a space and the hash when
    [BuildRevisionHash] is present. *)
Definition space_prefixed (c : gmap string string) (k : string) : string :=
  match c !! k with
  | Some v => " " +:+ v
  | None => ""
  end.

Definition build_identity (c : gmap string string) : string :=
  (default "" (c !! "BuildRevision")
     +:+ space_prefixed c "BuildRevisionBranch")
     +:+ space_prefixed c "BuildRevisionHash".

(** The text a reading stream in text mode makes of the bytes of a file. *)
Definition read_as_text (bytes : string) : QString :=
  remove_CR (toUnicode codec bytes).

(** The bytes [_createBootFile] sends to the marker for a configuration. *)
Definition marker_bytes (c : gmap string string) : string :=
  fromUnicode codec (fromStdString codec (build_identity c)).

(** The configuration after a read of [BuildRevision] through
    [operator[]]. *)
Definition touch_BuildRevision (c : gmap string string) : gmap string string :=
  match c !! "BuildRevision" with
  | Some _ => c
  | None => <["BuildRevision" := ""]> c
  end.

(** Would the next [QTemporaryDir] be invalid? *)
Definition provisioner_fails (w : World) : bool :=
  match temp_supply w with
  | Some _ :: _ => false
  | _ => true
  end.

Definition warning : string := "Failed boot detected, entering safe mode!".

(** The world after a read of [BuildRevision] through [operator[]]. *)
Definition touch (w : World) : World :=
  match Config w !! "BuildRevision" with
  | Some _ => w
  | None => set_Config (<["BuildRevision" := ""]> (Config w)) w
  end.

(** ** Vocabulary of the proofs *)

(** From [w] to [w'] only the marker file, the [BuildRevision] entry and
    the clock may have changed. *)
Record marker_frame (w w' : World) : Prop := {
  mf_env : env w' = env w;
  mf_tempDir : tempDir w' = tempDir w;
  mf_supply : temp_supply w' = temp_supply w;
  mf_diagnostics : diagnostics w' = diagnostics w;
  mf_calls : mkpath_calls w' = mkpath_calls w;
  mf_creations : creations w' = creations w;
  mf_Config : Config w' = Config w \/ Config w' = touch_BuildRevision (Config w);
  mf_Dir : forall p t, fs w !! p = Some (Dir t) -> fs w' !! p = Some (Dir t);
  mf_fs : forall p, p <> marker_path w -> fs w' !! p = fs w !! p
}.

(** Can the marker be opened for writing? *)
Definition can_write_marker (w : World) : bool :=
  match fs w !! marker_path w with
  | Some (Dir _) => false
  | _ => may_write (env w) (marker_path w)
  end.

(** The world [_createBootFile] leaves when the open succeeds: the marker
    holds those bytes of the build identity that reached the disk. *)
Definition written (w : World) : World :=
  set_fs (<[marker_path w :=
              File (clock w)
                   (stored (env w) (marker_path w)
                           (marker_bytes (Config w)))]> (fs w))
         (touch w).

(** The world after a [QTemporaryDir] was created at [root]. *)
Definition provisioned (root : string) (rest : list (option string)) (w : World) : World :=
  set_tempDir (live {| isValid := true; path := root |})
    (set_creations (creations w ++ [true])
       (set_temp_supply rest
          (set_fs (<[root := Dir (clock w)]> (fs w)) w))).

(** One round of the loop of [_replaceDirs]. *)
Definition rebind (root d : string) : M unit :=
  Qt.QDir_mkpath (profile_path root d) >> map_assign d (profile_path root d).

(** What a run of the loop over the keys [l] does. *)
Record rebound (root : string) (l : list string) (w w' : World) : Prop := {
  rb_env : env w' = env w;
  rb_tempDir : tempDir w' = tempDir w;
  rb_supply : temp_supply w' = temp_supply w;
  rb_diagnostics : diagnostics w' = diagnostics w;
  rb_creations : creations w' = creations w;
  rb_calls : exists new,
      mkpath_calls w' = mkpath_calls w ++ new /\
      map fst new = map (profile_path root) l /\
      (forall p, (p, true) ∈ new -> exists t, fs w' !! p = Some (Dir t));
  rb_key : forall k, k ∈ l -> Config w' !! k = Some (profile_path root k);
  rb_other : forall k, k ∉ l -> Config w' !! k = Config w !! k;
  rb_fs : forall p n, fs w !! p = Some n -> fs w' !! p = Some n
}.

(** The world after the optional warning. *)
Definition warned (b : bool) (w : World) : World :=
  if b then set_diagnostics (diagnostics w ++ [warning]) w else w.

Inductive Initialize_outcome (force b : bool) (w w1 w' : World) : Prop :=
  | normal_run :
      b || force = false ->
      w' = w1 ->
      Initialize_outcome force b w w1 w'
  | no_scratch_root :
      b || force = true ->
      provisioner_fails w = true ->
      tempDir w' = nullptr ->
      env w' = env w1 -> Config w' = Config w1 -> fs w' = fs w1 ->
      diagnostics w' = diagnostics w ->
      mkpath_calls w' = mkpath_calls w ->
      temp_supply w' = tail (temp_supply w) ->
      creations w' = creations w ++ [false] ->
      Initialize_outcome force b w w1 w'
  | safe_mode (root : string) (rest : list (option string)) :
      b || force = true ->
      temp_supply w = Some root :: rest ->
      rebound root dirs (warned b (provisioned root rest w1)) w' ->
      Initialize_outcome force b w w1 w'.

Definition no_Destruct (cs : list call) : bool :=
  forallb (fun c => negb (is_Destruct c)) cs.

(** What holds of every world reached without [Destruct]. *)
Record scratch_invariant (w : World) : Prop := {
  si_pointer : tempDir w <> dangling;
  si_made : forall p, (p, true) ∈ mkpath_calls w -> exists t, fs w !! p = Some (Dir t);
  si_keys : forall d k, tempDir w = live d -> k ∈ dirs ->
      Config w !! k = Some (profile_path (path d) k) /\
      exists ok, (profile_path (path d) k, ok) ∈ mkpath_calls w
}.

Fixpoint count_Initialize (cs : list call) : nat :=
  match cs with
  | [] => 0
  | c :: cs' => (if is_Initialize c then 1 else 0) + count_Initialize cs'
  end%nat.

(** The answer [SafeModeEnabled] gives in [w]. *)
Definition enabled (w : World) : bool :=
  if tempDir w is nullptr then false else true.

(** From [c] to [c'] nothing changed but the six profile keys, and
    [BuildRevision] at most from absent to empty. *)
Definition Config_step (c c' : gmap string string) : Prop :=
  (forall k, k ∉ dirs -> k <> "BuildRevision" -> c' !! k = c !! k) /\
  (c' !! "BuildRevision" = c !! "BuildRevision" \/
   (c !! "BuildRevision" = None /\ c' !! "BuildRevision" = Some "")).

(** ** Strings *)

Lemma string_app_cons (a : ascii) (s t : string) :
  String a s +:+ t = String a (s +:+ t).
Proof. reflexivity. Qed.

Lemma string_app_empty_r (s : string) : s +:+ "" = s.
Proof.
  induction s as [|a s IH]; [reflexivity|].
  now rewrite string_app_cons, IH.
Qed.

Lemma prefix_empty (s : string) : String.prefix "" s = true.
Proof. now destruct s. Qed.

Lemma prefix_app (s t : string) : String.prefix s (s +:+ t) = true.
Proof.
  induction s as [|a s IH].
  - apply prefix_empty.
  - rewrite string_app_cons. simpl.
    destruct (ascii_dec a a); [exact IH | congruence].
Qed.

Lemma string_app_assoc (s t u : string) : (s +:+ t) +:+ u = s +:+ (t +:+ u).
Proof.
  induction s as [|a s IH]; [reflexivity|].
  now rewrite !string_app_cons, IH.
Qed.

(** ** The build identity *)

Lemma Config_touch (w : World) : Config (touch w) = touch_BuildRevision (Config w).
Proof. unfold touch, touch_BuildRevision. now destruct (Config w !! "BuildRevision"). Qed.

Lemma touch_frame (w : World) :
  env (touch w) = env w /\ tempDir (touch w) = tempDir w /\ fs (touch w) = fs w /\
  temp_supply (touch w) = temp_supply w /\ diagnostics (touch w) = diagnostics w /\
  mkpath_calls (touch w) = mkpath_calls w.
Proof. unfold touch. now destruct (Config w !! "BuildRevision"). Qed.

Lemma touch_lookup_ne (c : gmap string string) (k : string) :
  k <> "BuildRevision" -> touch_BuildRevision c !! k = c !! k.
Proof.
  intros Hk. unfold touch_BuildRevision.
  destruct (c !! "BuildRevision"); [reflexivity|].
  now rewrite lookup_insert_ne.
Qed.

Lemma touch_lookup_BuildRevision (c : gmap string string) :
  touch_BuildRevision c !! "BuildRevision" = Some (default "" (c !! "BuildRevision")).
Proof.
  unfold touch_BuildRevision.
  destruct (c !! "BuildRevision") eqn:E; simpl; [exact E|].
  now rewrite lookup_insert_eq.
Qed.

Lemma build_identity_touch (c : gmap string string) :
  build_identity (touch_BuildRevision c) = build_identity c.
Proof.
  unfold build_identity, space_prefixed.
  rewrite touch_lookup_BuildRevision, !touch_lookup_ne by discriminate.
  reflexivity.
Qed.

(** [_bootFileContent] computes the build identity and leaves the world as
    it was, up to the read of [BuildRevision]. *)
Lemma _bootFileContent_eq (w : World) :
  _bootFileContent w = Ok (build_identity (Config w)) (touch w).
Proof.
  unfold _bootFileContent, build_identity, space_prefixed, touch,
    map_index, map_count, bind, ret.
  destruct (Config w !! "BuildRevision") as [rev|] eqn:Erev;
    destruct (Config w !! "BuildRevisionBranch") as [br|] eqn:Ebr;
    destruct (Config w !! "BuildRevisionHash") as [h|] eqn:Eh;
    simpl;
    repeat (rewrite ?Erev, ?Ebr, ?Eh, ?lookup_insert_ne by discriminate; simpl);
    rewrite ?string_app_empty_r; reflexivity.
Qed.

Lemma _getBootFailDetectionFileName_eq (w : World) :
  _getBootFailDetectionFileName w = Ok (marker_path w) w.
Proof. reflexivity. Qed.

Lemma touch_clock (w : World) :
  clock (touch w) = clock w /\ passing (touch w) = passing w /\
  creations (touch w) = creations w.
Proof. unfold touch. now destruct (Config w !! "BuildRevision"). Qed.

(** ** The clock *)

Lemma tick_frame (w : World) :
  env (tick w) = env w /\ Config (tick w) = Config w /\
  tempDir (tick w) = tempDir w /\ fs (tick w) = fs w /\
  temp_supply (tick w) = temp_supply w /\ diagnostics (tick w) = diagnostics w /\
  mkpath_calls (tick w) = mkpath_calls w /\ creations (tick w) = creations w.
Proof. unfold tick. destruct (passing w); repeat split. Qed.

Lemma marker_path_env (w w' : World) : env w' = env w -> marker_path w' = marker_path w.
Proof. unfold marker_path. now intros ->. Qed.

Lemma marker_path_tick (w : World) : marker_path (tick w) = marker_path w.
Proof. apply marker_path_env. apply tick_frame. Qed.

Lemma QString_eqb_eq (a b : QString) : QString_eqb a b = true <-> a = b.
Proof.
  revert b. induction a as [|x a IH]; intros [|y b]; simpl; try easy.
  rewrite andb_true_iff, N.eqb_eq, IH. split.
  - now intros [-> ->].
  - now intros [= -> ->].
Qed.

Lemma QString_eqb_refl (a : QString) : QString_eqb a a = true.
Proof. now apply QString_eqb_eq. Qed.

(** [secsTo] stays within twelve hours exactly up to twelve hours and 999
    milliseconds. *)
Lemma secsTo_le_12h (t now : Z) :
  secsTo (Some t) (Some now) <= 12 * 3600 <-> now - t < (12 * 3600 + 1) * 1000.
Proof.
  unfold secsTo. split; intros H.
  - destruct (Z_lt_ge_dec (now - t) 43201000) as [Hlt|Hge]; [lia|].
    assert (Z.quot 43201000 1000 <= Z.quot (now - t) 1000)
      by (apply Z.quot_le_mono; lia).
    change (Z.quot 43201000 1000) with 43201 in *. lia.
  - assert (Z.quot (now - t) 1000 <= Z.quot 43200999 1000)
      by (apply Z.quot_le_mono; lia).
    change (Z.quot 43200999 1000) with 43200 in *. lia.
Qed.

(** ** The marker test *)

(** Unfolds the marker test at a world whose marker path is known. *)
Ltac marker_test :=
  unfold _didBootFailRecently, bind, ret, Qt.QFileInfo_exists,
    Qt.currentDateTime, Qt.QFileInfo_lastModified,
    Qt.QFile_open_ReadOnly_readAll;
  rewrite ?_getBootFailDetectionFileName_eq.

Lemma _didBootFailRecently_absent (w : World) :
  fs w !! marker_path w = None -> _didBootFailRecently w = Ok false w.
Proof. intros E. marker_test. now rewrite E. Qed.

Lemma _didBootFailRecently_present (w : World) (n : node) :
  fs w !! marker_path w = Some n ->
  _didBootFailRecently w =
    if secsTo (Some (node_lastModified n)) (Some (clock w)) >? 12 * secondsPerHour
    then Ok false (tick w)
    else match n with
         | File _ bytes =>
             if may_read (env w) (marker_path w)
             then bind _bootFileContent (fun expected =>
                    if negb (QString_eqb (read_as_text bytes)
                                         (fromStdString codec expected))
                    then ret false else ret true) (tick w)
             else Ok false (tick w)
         | Dir _ => Ok false (tick w)
         end.
Proof.
  intros E. marker_test. rewrite E. cbv beta iota delta [negb].
  destruct (tick_frame w) as (He & _ & _ & Hfs & _).
  rewrite Hfs, E.
  change (node_lastModified <$> Some n) with (Some (node_lastModified n)).
  destruct (_ >? _); [reflexivity|]. cbv beta. rewrite Hfs, He, E.
  destruct n as [t bytes|t]; [|reflexivity].
  now destruct (may_read (env w) (marker_path w)).
Qed.

Lemma gtb_12h_true (d : Z) : d > 12 * 3600 -> (d >? 12 * secondsPerHour) = true.
Proof. unfold secondsPerHour. intros H. apply Z.gtb_lt. lia. Qed.

Lemma gtb_12h_false (d : Z) : d <= 12 * 3600 -> (d >? 12 * secondsPerHour) = false.
Proof.
  unfold secondsPerHour. intros H.
  destruct (Z.gtb_spec d (12 * 3600)); [lia | reflexivity].
Qed.

Lemma _didBootFailRecently_stale (w : World) (n : node) :
  fs w !! marker_path w = Some n ->
  secsTo (Some (node_lastModified n)) (Some (clock w)) > 12 * 3600 ->
  _didBootFailRecently w = Ok false (tick w).
Proof.
  intros E Hold. rewrite (_didBootFailRecently_present w n E).
  now rewrite gtb_12h_true.
Qed.

Lemma _didBootFailRecently_Dir (w : World) (t : Z) :
  fs w !! marker_path w = Some (Dir t) -> _didBootFailRecently w = Ok false (tick w).
Proof.
  intros E. rewrite (_didBootFailRecently_present w _ E).
  now destruct (_ >? _).
Qed.

Lemma _didBootFailRecently_unreadable (w : World) (t : Z) (bytes : string) :
  fs w !! marker_path w = Some (File t bytes) ->
  may_read (env w) (marker_path w) = false ->
  _didBootFailRecently w = Ok false (tick w).
Proof.
  intros E Hr. rewrite (_didBootFailRecently_present w _ E), Hr.
  now destruct (_ >? _).
Qed.

Lemma _didBootFailRecently_compared (w : World) (t : Z) (bytes : string) :
  fs w !! marker_path w = Some (File t bytes) ->
  secsTo (Some t) (Some (clock w)) <= 12 * 3600 ->
  may_read (env w) (marker_path w) = true ->
  _didBootFailRecently w =
    Ok (QString_eqb (read_as_text bytes)
                    (fromStdString codec (build_identity (Config w))))
       (touch (tick w)).
Proof.
  intros E Hfresh Hr. rewrite (_didBootFailRecently_present w _ E), Hr.
  simpl node_lastModified. rewrite gtb_12h_false by assumption.
  unfold bind, ret. rewrite _bootFileContent_eq.
  destruct (tick_frame w) as (_ & -> & _).
  now destruct (QString_eqb _ _).
Qed.

(** The marker test always answers; apart from the clock it touches the
    world at most by the read of [BuildRevision]. *)
Lemma marker_test_world (w : World) :
  exists b : bool,
    _didBootFailRecently w = Ok b w \/
    _didBootFailRecently w = Ok b (tick w) \/
    _didBootFailRecently w = Ok b (touch (tick w)).
Proof.
  destruct (fs w !! marker_path w) as [[t bytes|t]|] eqn:E.
  - destruct (Z_le_gt_dec (secsTo (Some t) (Some (clock w))) (12 * 3600))
      as [Hfresh|Hstale].
    + destruct (may_read (env w) (marker_path w)) eqn:Hr.
      * eexists. right. right. now apply (_didBootFailRecently_compared w t bytes).
      * exists false. right. left. now apply (_didBootFailRecently_unreadable w t bytes).
    + exists false. right. left. now apply (_didBootFailRecently_stale w (File t bytes)).
  - exists false. right. left. now apply (_didBootFailRecently_Dir w t).
  - exists false. left. now apply _didBootFailRecently_absent.
Qed.

(** C1, as amended: the marker test answers true exactly when (1) a
    regular file sits at the marker path, (2) its last modification lies
    less than 12 hours and one second before the current time ([secsTo]
    counts whole seconds, so up to 999 milliseconds beyond the twelve hours
    still pass), and (3) the file can be opened for reading and its bytes,
    decoded as text by the stream with every carriage return dropped, are
    the build identity as [QString::fromStdString] converts it: revision,
    then the space-prefixed branch if present, then the space-prefixed hash
    if present.  A miss, whether an absent file, a stale one, something
    that cannot be opened or a different text, answers false.  The tests
    short-circuit: the clock is only looked at when something is at the
    marker path, and the build identity is only computed once (1), (2) and
    the open have passed. *)
Theorem _didBootFailRecently_iff (w : World) :
  exists (b : bool) (w' : World),
    _didBootFailRecently w = Ok b w' /\
    (b = true <->
       exists (t : Z) (bytes : string),
         fs w !! marker_path w = Some (File t bytes) /\
         clock w - t < (12 * 3600 + 1) * 1000 /\
         may_read (env w) (marker_path w) = true /\
         remove_CR (toUnicode codec bytes) =
           fromStdString codec (build_identity (Config w))) /\
    (fs w !! marker_path w = None -> w' = w) /\
    (w' = w \/ w' = tick w \/
     w' = touch (tick w) /\
       exists (t : Z) (bytes : string),
         fs w !! marker_path w = Some (File t bytes) /\
         clock w - t < (12 * 3600 + 1) * 1000 /\
         may_read (env w) (marker_path w) = true).
Proof.
  destruct (fs w !! marker_path w) as [[t bytes|t]|] eqn:E.
  - destruct (Z_le_gt_dec (secsTo (Some t) (Some (clock w))) (12 * 3600))
      as [Hfresh|Hstale].
    + pose proof (proj1 (secsTo_le_12h t (clock w)) Hfresh) as Hms.
      destruct (may_read (env w) (marker_path w)) eqn:Hr.
      * exists (QString_eqb (read_as_text bytes)
                  (fromStdString codec (build_identity (Config w)))),
               (touch (tick w)).
        split; [now apply (_didBootFailRecently_compared w t bytes)|].
        split; [|split; [discriminate|right; right; split; [reflexivity|];
                                       now exists t, bytes]].
        rewrite QString_eqb_eq. unfold read_as_text. split.
        -- intros Heq. now exists t, bytes.
        -- intros (t' & bytes' & Heq & _ & _ & Htext). congruence.
      * exists false, (tick w).
        split; [now apply (_didBootFailRecently_unreadable w t bytes)|].
        split; [|split; [discriminate|auto]].
        split; [discriminate|].
        intros (t' & bytes' & _ & _ & Hr' & _). congruence.
    + exists false, (tick w).
      split; [now apply (_didBootFailRecently_stale w (File t bytes))|].
      split; [|split; [discriminate|auto]].
      split; [discriminate|].
      intros (t' & bytes' & Heq & Hms & _). injection Heq as <- <-.
      apply secsTo_le_12h in Hms. lia.
  - exists false, (tick w).
    split; [now apply (_didBootFailRecently_Dir w t)|].
    split; [|split; [discriminate|auto]].
    split; [discriminate|].
    intros (t' & bytes' & Heq & _). discriminate.
  - exists false, w.
    split; [now apply _didBootFailRecently_absent|].
    split; [|split; [reflexivity|auto]].
    split; [discriminate|].
    intros (t' & bytes' & Heq & _). discriminate.
Qed.

(** ** What the marker operations leave alone *)

Lemma touch_BuildRevision_idem (c : gmap string string) :
  touch_BuildRevision (touch_BuildRevision c) = touch_BuildRevision c.
Proof.
  unfold touch_BuildRevision at 1.
  now rewrite touch_lookup_BuildRevision.
Qed.

Lemma marker_frame_refl (w : World) : marker_frame w w.
Proof. split; auto. Qed.

Lemma marker_frame_touch (w : World) : marker_frame w (touch w).
Proof.
  destruct (touch_frame w) as (? & ? & Hfs & ? & ? & ?).
  destruct (touch_clock w) as (_ & _ & ?).
  split; try assumption.
  - right. apply Config_touch.
  - intros p t. now rewrite Hfs.
  - intros p _. now rewrite Hfs.
Qed.

Lemma marker_frame_tick (w : World) : marker_frame w (tick w).
Proof.
  destruct (tick_frame w) as (? & Hc & ? & Hfs & ? & ? & ? & ?).
  split; try assumption.
  - now left.
  - intros p t. now rewrite Hfs.
  - intros p _. now rewrite Hfs.
Qed.

Lemma marker_frame_trans (w1 w2 w3 : World) :
  marker_frame w1 w2 -> marker_frame w2 w3 -> marker_frame w1 w3.
Proof.
  intros [E1 T1 S1 D1 C1 K1 Cf1 Dr1 F1] [E2 T2 S2 D2 C2 K2 Cf2 Dr2 F2].
  split; try congruence.
  - destruct Cf2 as [Cf2|Cf2]; rewrite Cf2; destruct Cf1 as [Cf1|Cf1];
      rewrite Cf1; auto.
    right. apply touch_BuildRevision_idem.
  - auto.
  - intros p Hp. rewrite F2, F1; auto.
    now rewrite (marker_path_env w1 w2).
Qed.

Lemma marker_frame_Config_ne (w w' : World) (k : string) :
  marker_frame w w' -> k <> "BuildRevision" -> Config w' !! k = Config w !! k.
Proof.
  intros [_ _ _ _ _ _ [Hc|Hc] _ _] Hk; rewrite Hc; [reflexivity|].
  now apply touch_lookup_ne.
Qed.

Lemma _didBootFailRecently_frame (w w' : World) (b : bool) :
  _didBootFailRecently w = Ok b w' -> marker_frame w w'.
Proof.
  intros H. destruct (marker_test_world w) as (b0 & [H0|[H0|H0]]);
    rewrite H in H0; injection H0 as -> ->.
  - apply marker_frame_refl.
  - apply marker_frame_tick.
  - apply (marker_frame_trans _ (tick w)).
    + apply marker_frame_tick.
    + apply marker_frame_touch.
Qed.

Lemma _createBootFile_eq (w : World) :
  _createBootFile w = Ok tt (if can_write_marker w then written w else w).
Proof.
  unfold _createBootFile, bind, ret. rewrite _getBootFailDetectionFileName_eq.
  unfold Qt.QFile_open_WriteOnly, Qt.QTextStream_write, can_write_marker, written,
    marker_bytes.
  destruct (fs w !! marker_path w) as [[t text|t]|] eqn:E;
    try reflexivity;
    (destruct (may_write (env w) (marker_path w)); [|reflexivity]);
    cbv beta iota delta [negb]; rewrite _bootFileContent_eq;
    simpl; unfold touch; simpl;
    destruct (Config w !! "BuildRevision"); simpl;
    now rewrite ?insert_insert_eq.
Qed.

Lemma _createBootFile_frame (w w' : World) :
  _createBootFile w = Ok tt w' -> marker_frame w w'.
Proof.
  rewrite _createBootFile_eq. intros [= <-].
  unfold can_write_marker.
  destruct (touch_frame w) as (He & Ht & Hfs & Hs & Hd & Hc).
  destruct (touch_clock w) as (_ & _ & Hk).
  assert (Hw : forall p, p <> marker_path w -> fs (written w) !! p = fs w !! p).
  { intros p Hp. unfold written, set_fs. cbn [fs]. now apply lookup_insert_ne. }
  assert (Hfr : (forall t, fs w !! marker_path w <> Some (Dir t)) ->
                marker_frame w (written w)).
  { intros Hnd. split; try assumption; try apply Hw.
    - unfold written, set_fs. cbn [Config]. right. apply Config_touch.
    - intros p t Hp. rewrite Hw; [assumption|]. intros ->. now apply (Hnd t). }
  destruct (fs w !! marker_path w) as [[t text|t]|] eqn:E;
    try apply marker_frame_refl;
    (destruct (may_write (env w) (marker_path w));
     [apply Hfr; congruence | apply marker_frame_refl]).
Qed.

Lemma BootUpComplete_eq (w : World) :
  exists w', BootUpComplete w = Ok tt w' /\ marker_frame w w' /\ Config w' = Config w.
Proof.
  unfold BootUpComplete, bind, ret. rewrite _getBootFailDetectionFileName_eq.
  unfold Qt.QFile_remove.
  destruct (fs w !! marker_path w) as [[t text|t]|] eqn:E;
    try (exists w; split; [reflexivity|]; split; [apply marker_frame_refl|reflexivity]).
  destruct (may_remove (env w) (marker_path w));
    [|exists w; split; [reflexivity|]; split; [apply marker_frame_refl|reflexivity]].
  eexists. split; [reflexivity|]. split; [|reflexivity].
  split; simpl; auto.
  - intros p t' Hp. rewrite lookup_delete_ne; [assumption|]. congruence.
  - intros p Hp. now rewrite lookup_delete_ne.
Qed.

(** ** The provisioner *)

Lemma _createTemporaryBaseDir_ok (w : World) (root : string) (rest : list (option string)) :
  temp_supply w = Some root :: rest ->
  _createTemporaryBaseDir w = Ok true (provisioned root rest w).
Proof.
  intros Hs. unfold _createTemporaryBaseDir, bind, ret, new_QTemporaryDir.
  now rewrite Hs.
Qed.

Lemma _createTemporaryBaseDir_fail (w : World) :
  provisioner_fails w = true ->
  exists w', _createTemporaryBaseDir w = Ok false w' /\
    tempDir w' = nullptr /\ env w' = env w /\ Config w' = Config w /\
    fs w' = fs w /\ diagnostics w' = diagnostics w /\
    mkpath_calls w' = mkpath_calls w /\ temp_supply w' = tail (temp_supply w) /\
    creations w' = creations w ++ [false].
Proof.
  unfold provisioner_fails, _createTemporaryBaseDir, bind, ret, new_QTemporaryDir.
  destruct (temp_supply w) as [|[root|] rest] eqn:Hs; try discriminate; intros _;
    (eexists; split; [reflexivity|]; simpl; now rewrite ?Hs).
Qed.

(** ** The rebinder *)

Lemma _replaceDirs_live (w : World) (d : QTemporaryDir) :
  tempDir w = live d -> _replaceDirs w = for_each dirs (rebind (path d)) w.
Proof.
  intros Ht. unfold _replaceDirs, bind at 1, tempDir_path. now rewrite Ht.
Qed.

Lemma QDir_mkpath_spec (p : string) (w : World) :
  exists (r : bool) (fs' : gmap string node),
    Qt.QDir_mkpath p w =
      Ok r (set_mkpath_calls (mkpath_calls w ++ [(p, r)]) (set_fs fs' w)) /\
    (forall q n, fs w !! q = Some n -> fs' !! q = Some n) /\
    (r = true -> exists t, fs' !! p = Some (Dir t)) /\
    (r = false -> fs' = fs w).
Proof.
  unfold Qt.QDir_mkpath.
  destruct (fs w !! p) as [[t text|t]|] eqn:E.
  - exists false, (fs w). repeat split; auto; discriminate.
  - exists true, (fs w). repeat split; auto; try discriminate. now exists t.
  - destruct (may_mkdir (env w) p).
    + exists true, (<[p := Dir (clock w)]> (fs w)).
      repeat split; try discriminate.
      * intros q n Hq. rewrite lookup_insert_ne; [assumption|congruence].
      * intros _. eexists. apply lookup_insert_eq.
    + exists false, (fs w). repeat split; auto; discriminate.
Qed.

Lemma rebind_loop (root : string) (l : list string) (w : World) :
  exists w', for_each l (rebind root) w = Ok tt w' /\ rebound root l w w'.
Proof.
  revert w. induction l as [|d l IH]; intros w.
  - exists w. split; [reflexivity|]. split; auto.
    + exists []. rewrite app_nil_r. repeat split; intros p Hp; inversion Hp.
    + intros k Hk. inversion Hk.
  - destruct (QDir_mkpath_spec (profile_path root d) w) as (r & fs' & Hmk & Hkeep & Hdir & Hsame).
    set (w1 := set_Config (<[d := profile_path root d]> (Config w))
                 (set_mkpath_calls (mkpath_calls w ++ [(profile_path root d, r)])
                    (set_fs fs' w))).
    destruct (IH w1) as (w' & Hrun & [He Ht Hs Hd Hcr (new & Hc & Hn & Ht') Hk Ho Hfs]).
    exists w'. split.
    { cbn [for_each]. unfold bind at 1, rebind, bind at 1. rewrite Hmk.
      unfold map_assign. exact Hrun. }
    split; try (etransitivity; [eassumption|reflexivity]).
    + exists ((profile_path root d, r) :: new). repeat split.
      * rewrite Hc. subst w1. simpl. now rewrite <- app_assoc.
      * simpl. now rewrite Hn.
      * intros p Hp. apply elem_of_cons in Hp as [[= -> <-]|Hp]; [|now apply Ht'].
        destruct (Hdir eq_refl) as [t Hp]. exists t. apply Hfs. exact Hp.
    + intros k Hk'. destruct (decide (k ∈ l)) as [Hin|Hnin]; [now apply Hk|].
      apply elem_of_cons in Hk' as [->|Hk']; [|contradiction].
      rewrite Ho by assumption. subst w1. simpl. apply lookup_insert_eq.
    + intros k Hk'. apply not_elem_of_cons in Hk' as [Hne Hnin].
      rewrite Ho by assumption. subst w1. simpl. now apply lookup_insert_ne.
    + intros p n Hp. apply Hfs. subst w1. simpl. now apply Hkeep.
Qed.

(** ** The three ways through [InitializeSafeMode] *)

Lemma InitializeSafeMode_cases (force : bool) (w : World) :
  exists (b : bool) (w0 w1 w' : World),
    _didBootFailRecently w = Ok b w0 /\
    w1 = (if can_write_marker w0 then written w0 else w0) /\
    marker_frame w w1 /\
    InitializeSafeMode force w = Ok tt w' /\
    Initialize_outcome force b w w1 w'.
Proof.
  assert (exists b w0, _didBootFailRecently w = Ok b w0) as (b & w0 & Hb).
  { destruct (marker_test_world w) as (b & [Hb|[Hb|Hb]]); eauto. }
  pose proof (_didBootFailRecently_frame _ _ _ Hb) as F0.
  pose proof (_createBootFile_frame w0 _ (_createBootFile_eq w0)) as F1.
  set (w1 := if can_write_marker w0 then written w0 else w0) in *.
  pose proof (marker_frame_trans _ _ _ F0 F1) as F.
  assert (Hunf : InitializeSafeMode force w =
    (if b || force then
       let* created := _createTemporaryBaseDir in
       if created then
         (if b then Qt.qWarning warning else ret tt) >> _replaceDirs
       else ret tt
     else ret tt) w1).
  { unfold InitializeSafeMode, bind at 1. rewrite Hb.
    unfold bind at 1. now rewrite _createBootFile_eq. }
  exists b, w0, w1.
  destruct (b || force) eqn:Hbf.
  - destruct (temp_supply w1) as [|[root|] rest] eqn:Hs.
    + destruct (_createTemporaryBaseDir_fail w1) as (w' & Hc & H1 & H2 & H3 & H4 & H5 & H6 & H7 & H8).
      { unfold provisioner_fails. now rewrite Hs. }
      exists w'. split; [exact Hb|]. split; [reflexivity|]. split; [exact F|].
      split.
      { rewrite Hunf. unfold bind. now rewrite Hc. }
      destruct F. apply no_scratch_root; try congruence.
      unfold provisioner_fails. now rewrite <- mf_supply0, Hs.
    + set (w2 := warned b (provisioned root rest w1)).
      destruct (rebind_loop root dirs w2) as (w' & Hrun & Hreb).
      exists w'. split; [exact Hb|]. split; [reflexivity|]. split; [exact F|].
      split.
      { rewrite Hunf. unfold bind at 1.
        rewrite (_createTemporaryBaseDir_ok w1 root rest Hs).
        unfold bind at 1.
        assert (Hw : (if b then Qt.qWarning warning else ret tt)
                       (provisioned root rest w1) = Ok tt w2).
        { subst w2. unfold warned. now destruct b. }
        rewrite Hw.
        rewrite (_replaceDirs_live w2 {| isValid := true; path := root |}).
        - exact Hrun.
        - subst w2. unfold warned. now destruct b. }
      destruct F. apply (safe_mode _ _ _ _ _ root rest); try congruence.
      exact Hreb.
    + destruct (_createTemporaryBaseDir_fail w1) as (w' & Hc & H1 & H2 & H3 & H4 & H5 & H6 & H7 & H8).
      { unfold provisioner_fails. now rewrite Hs. }
      exists w'. split; [exact Hb|]. split; [reflexivity|]. split; [exact F|].
      split.
      { rewrite Hunf. unfold bind. now rewrite Hc. }
      destruct F. apply no_scratch_root; try congruence.
      unfold provisioner_fails. now rewrite <- mf_supply0, Hs.
  - exists w1. split; [exact Hb|]. split; [reflexivity|]. split; [exact F|].
    split; [now rewrite Hunf|]. now apply normal_run.
Qed.

Lemma dirs_not_BuildRevision (k : string) : k ∈ dirs -> k <> "BuildRevision".
Proof.
  unfold dirs. intros Hk ->.
  repeat (apply elem_of_cons in Hk as [Hk|Hk]; [discriminate|]).
  inversion Hk.
Qed.

Lemma marker_frame_profile_keys (w w' : World) (k : string) :
  marker_frame w w' -> k ∈ dirs -> Config w' !! k = Config w !! k.
Proof.
  intros F Hk. apply (marker_frame_Config_ne w w' k F).
  now apply dirs_not_BuildRevision.
Qed.

Lemma warned_frame (b : bool) (w : World) :
  env (warned b w) = env w /\ Config (warned b w) = Config w /\
  tempDir (warned b w) = tempDir w /\ fs (warned b w) = fs w /\
  temp_supply (warned b w) = temp_supply w /\
  mkpath_calls (warned b w) = mkpath_calls w /\
  diagnostics (warned b w) = diagnostics w ++ (if b then [warning] else []).
Proof. destruct b; simpl; rewrite ?app_nil_r; auto 10. Qed.

(** ** The diagnostic channel *)

Lemma outcome_diagnostics (force b : bool) (w w1 w' : World) :
  marker_frame w w1 ->
  Initialize_outcome force b w w1 w' ->
  diagnostics w' =
    diagnostics w ++ (if b && negb (provisioner_fails w) then [warning] else []).
Proof.
  intros F Hout.
  destruct Hout as [Hbf -> | Hbf Hfail _ _ _ _ Hd _ _ _ | root rest Hbf Hs Hreb].
  - apply orb_false_elim in Hbf as [-> _]. simpl.
    rewrite app_nil_r. now destruct F.
  - rewrite Hfail, andb_false_r, app_nil_r. exact Hd.
  - unfold provisioner_fails. rewrite Hs, andb_true_r.
    destruct Hreb as [_ _ _ -> _ _ _ _ _].
    destruct (warned_frame b (provisioned root rest w1)) as (_ & _ & _ & _ & _ & _ & ->).
    simpl. now destruct F as [_ _ _ -> _ _ _ _ _].
Qed.

(** C7: a call of [InitializeSafeMode] appends exactly one line, the
    warning, to the diagnostic channel when the marker test on the world
    before the call found a failed boot and the scratch root could be
    created; in every other case, among them safe mode forced by the
    caller alone and a provisioner that fails, it appends nothing. *)
Theorem InitializeSafeMode_diagnostics (force : bool) (w : World) :
  exists (b : bool) (w0 w' : World),
    _didBootFailRecently w = Ok b w0 /\
    InitializeSafeMode force w = Ok tt w' /\
    diagnostics w' =
      diagnostics w ++
        (if b && negb (provisioner_fails w) then [warning] else []).
Proof.
  destruct (InitializeSafeMode_cases force w)
    as (b & w0 & w1 & w' & Hb & _ & F & Hrun & Hout).
  exists b, w0, w'. split; [exact Hb|]. split; [exact Hrun|].
  now apply (outcome_diagnostics force b w w1 w').
Qed.

(** ** A provisioner that fails *)

(** C6: when no temporary directory can be created, [InitializeSafeMode],
    called in a process that holds no scratch root yet, returns normally
    whatever [forceSafeMode] is; [SafeModeEnabled] then answers false, each
    of the six profile keys has the value (or the absence) it had before,
    and nothing was written to the diagnostic channel. *)
Theorem InitializeSafeMode_without_scratch_root (force : bool) (w : World) :
  provisioner_fails w = true ->
  tempDir w = nullptr ->
  exists w' : World,
    InitializeSafeMode force w = Ok tt w' /\
    SafeModeEnabled w' = Ok false w' /\
    (forall k, k ∈ dirs -> Config w' !! k = Config w !! k) /\
    diagnostics w' = diagnostics w.
Proof.
  intros Hfail Hnull.
  destruct (InitializeSafeMode_cases force w)
    as (b & w0 & w1 & w' & Hb & _ & F & Hrun & Hout).
  exists w'. split; [exact Hrun|].
  unfold SafeModeEnabled, tempDir_to_bool.
  destruct Hout as [Hbf -> | Hbf _ Ht _ Hc _ Hd _ _ _ | root rest Hbf Hs Hreb].
  - pose proof F as [_ Ht _ Hd _ _ _ _ _]. rewrite Ht, Hnull.
    split; [reflexivity|]. split; [|exact Hd].
    intros k Hk. now apply marker_frame_profile_keys.
  - rewrite Ht. split; [reflexivity|]. split; [|exact Hd].
    intros k Hk. rewrite Hc. now apply marker_frame_profile_keys.
  - unfold provisioner_fails in Hfail. now rewrite Hs in Hfail.
Qed.

(** ** The rebinder never rolls back *)

(** C8: with a live scratch root, [_replaceDirs] asks [mkpath] for six
    directories, in the order UserAppData, UserConfigPath, UserCachePath,
    AppTempPath, UserMacroPath, UserHomePath, and stores
    [<root><sep><key><sep>] under each of these six keys whatever [mkpath]
    answered, so also when it failed; no other key is written, and the
    pointer to the scratch root is left as it is, so [SafeModeEnabled]
    keeps answering true. *)
Theorem _replaceDirs_writes_every_key (w : World) (d : QTemporaryDir) :
  tempDir w = live d ->
  exists (w' : World) (new : list (string * bool)),
    _replaceDirs w = Ok tt w' /\
    mkpath_calls w' = mkpath_calls w ++ new /\
    map fst new =
      map (profile_path (path d))
          ["UserAppData"; "UserConfigPath"; "UserCachePath";
           "AppTempPath"; "UserMacroPath"; "UserHomePath"] /\
    (forall k,
       k ∈ ["UserAppData"; "UserConfigPath"; "UserCachePath";
            "AppTempPath"; "UserMacroPath"; "UserHomePath"] ->
       Config w' !! k = Some (((path d +:+ PATHSEP) +:+ k) +:+ PATHSEP)) /\
    (forall k,
       k ∉ ["UserAppData"; "UserConfigPath"; "UserCachePath";
            "AppTempPath"; "UserMacroPath"; "UserHomePath"] ->
       Config w' !! k = Config w !! k) /\
    tempDir w' = live d /\
    SafeModeEnabled w' = Ok true w'.
Proof.
  intros Ht. rewrite (_replaceDirs_live w d Ht).
  destruct (rebind_loop (path d) dirs w)
    as (w' & Hrun & [_ Ht' _ _ _ (new & Hc & Hn & _) Hk Ho _]).
  exists w', new. repeat split; try assumption.
  - congruence.
  - unfold SafeModeEnabled, tempDir_to_bool. now rewrite Ht', Ht.
Qed.

(** ** The marker is tested before it is written *)

Lemma marker_test_frame_fs (w w0 : World) (b : bool) :
  _didBootFailRecently w = Ok b w0 ->
  env w0 = env w /\ fs w0 = fs w /\
  (Config w0 = Config w \/ Config w0 = touch_BuildRevision (Config w)).
Proof.
  intros H. destruct (tick_frame w) as (He & Hc & _ & Hfs & _).
  destruct (marker_test_world w) as (b' & [H'|[H'|H']]);
    rewrite H in H'; injection H' as -> ->; [auto|auto|].
  destruct (touch_frame (tick w)) as (-> & _ & -> & _).
  rewrite Config_touch, Hc. auto.
Qed.




(** ** The freshness threshold *)

Lemma quot_1000_le (a b : Z) : a <= b -> Z.quot a 1000 <= Z.quot b 1000.
Proof. intros H. apply Z.quot_le_mono; lia. Qed.

(** C9: for a marker that is readable and reads as the current build
    identity, the test fails exactly when [secsTo] from its last
    modification to now exceeds 12 * 3600, which takes a last modification
    strictly more than 12 hours back; a marker exactly 12 hours old passes,
    and so does one whose last modification lies in the future. *)
Theorem freshness_threshold (w : World) (t : Z) (text : string) :
  fs w !! marker_path w = Some (File t text) ->
  may_read (env w) (marker_path w) = true ->
  read_as_text text = fromStdString codec (build_identity (Config w)) ->
  exists (b : bool) (w' : World),
    _didBootFailRecently w = Ok b w' /\
    (b = false <-> secsTo (Some t) (Some (clock w)) > 12 * 3600) /\
    (b = false -> clock w - t > 12 * 3600 * 1000) /\
    (clock w - t = 12 * 3600 * 1000 -> b = true) /\
    (clock w < t -> b = true).
Proof.
  intros E Hr Htext.
  destruct (Z_le_gt_dec (secsTo (Some t) (Some (clock w))) (12 * 3600))
    as [Hfresh|Hstale].
  - exists true, (touch (tick w)). split.
    { rewrite (_didBootFailRecently_compared w t _ E Hfresh Hr).
      now rewrite Htext, QString_eqb_refl. }
    split; [split; [discriminate | intros Hgt; exfalso; lia]|].
    split; [discriminate|]. split; reflexivity.
  - exists false, (tick w). split.
    { now apply (_didBootFailRecently_stale w (File t text)). }
    split; [split; [intros _; exact Hstale | reflexivity]|].
    assert (Hq : forall a, a <= 43200000 -> Z.quot a 1000 <= 43200).
    { intros a Ha. apply (quot_1000_le a 43200000) in Ha. exact Ha. }
    unfold secsTo in Hstale.
    split; [intros _|split].
    + destruct (Z_le_gt_dec (clock w - t) 43200000) as [Hle|Hgt]; [|lia].
      apply Hq in Hle. lia.
    + intros Heq. rewrite Heq in Hstale. vm_compute in Hstale. discriminate.
    + intros Hlt. assert (clock w - t <= 43200000) as Hle by lia.
      apply Hq in Hle. lia.
Qed.

(** ** Reading the build identity writes to the configuration *)

Lemma touch_absent (c : gmap string string) :
  c !! "BuildRevision" = None ->
  touch_BuildRevision c = <["BuildRevision" := ""]> c.
Proof. unfold touch_BuildRevision. now intros ->. Qed.

(** C10: when the configuration has no [BuildRevision], computing the build
    identity inserts that key with the empty string, and no other key:
    an absent [BuildRevisionBranch] or [BuildRevisionHash] stays absent.
    The insertion therefore happens in [_createBootFile] whenever the marker
    can be opened for writing, in [_didBootFailRecently] whenever a fresh,
    readable marker is compared, and in [InitializeSafeMode(false)] on a
    clean run (no marker yet, marker writable), which otherwise leaves the
    controller alone. *)
Theorem BuildRevision_is_default_inserted (w : World) :
  Config w !! "BuildRevision" = None ->
  (exists (s : string) (w' : World),
     _bootFileContent w = Ok s w' /\
     Config w' = <["BuildRevision" := ""]> (Config w) /\
     Config w' !! "BuildRevision" = Some "" /\
     (forall k, k <> "BuildRevision" -> Config w' !! k = Config w !! k)) /\
  (can_write_marker w = true ->
     exists w' : World,
       _createBootFile w = Ok tt w' /\
       Config w' = <["BuildRevision" := ""]> (Config w)) /\
  (forall (t : Z) (text : string),
     fs w !! marker_path w = Some (File t text) ->
     secsTo (Some t) (Some (clock w)) <= 12 * 3600 ->
     may_read (env w) (marker_path w) = true ->
     exists (b : bool) (w' : World),
       _didBootFailRecently w = Ok b w' /\
       Config w' = <["BuildRevision" := ""]> (Config w)) /\
  (fs w !! marker_path w = None ->
   may_write (env w) (marker_path w) = true ->
     exists w' : World,
       InitializeSafeMode false w = Ok tt w' /\
       Config w' = <["BuildRevision" := ""]> (Config w) /\
       tempDir w' = tempDir w).
Proof.
  intros Habs. split; [|split; [|split]].
  - exists (build_identity (Config w)), (touch w).
    split; [apply _bootFileContent_eq|].
    rewrite Config_touch, (touch_absent _ Habs).
    split; [reflexivity|]. split; [apply lookup_insert_eq|].
    intros k Hk. now apply lookup_insert_ne.
  - intros Hcw. exists (written w).
    rewrite _createBootFile_eq, Hcw. split; [reflexivity|].
    unfold written, set_fs. cbn [Config].
    now rewrite Config_touch, (touch_absent _ Habs).
  - intros t text E Hfresh Hr. eexists _, (touch (tick w)).
    split; [now apply (_didBootFailRecently_compared w t text)|].
    destruct (tick_frame w) as (_ & Hc & _).
    now rewrite Config_touch, Hc, (touch_absent _ Habs).
  - intros E Hw.
    destruct (InitializeSafeMode_cases false w)
      as (b & w0 & w1 & w' & Hb & Hw1 & F & Hrun & Hout).
    rewrite (_didBootFailRecently_absent w E) in Hb. injection Hb as <- <-.
    assert (Hcw : can_write_marker w = true).
    { unfold can_write_marker. now rewrite E. }
    rewrite Hcw in Hw1.
    destruct Hout as [_ -> | Hbf | root rest Hbf]; try discriminate.
    exists w1. split; [exact Hrun|]. subst w1.
    unfold written, set_fs. cbn [Config tempDir].
    rewrite Config_touch, (touch_absent _ Habs).
    split; [reflexivity|]. now destruct (touch_frame w) as (_ & ? & _).
Qed.

(** ** Redirection while safe mode is on *)

Lemma scratch_invariant_marker_frame (w w' : World) :
  scratch_invariant w -> marker_frame w w' -> scratch_invariant w'.
Proof.
  intros [Hp Hm Hk] F. pose proof F as [_ Ht _ _ Hc _ _ Hd _].
  split.
  - now rewrite Ht.
  - intros p Hin. rewrite Hc in Hin. destruct (Hm p Hin) as [t Hdir].
    exists t. now apply Hd.
  - intros d k Hlive Hin. rewrite Ht in Hlive.
    rewrite Hc, (marker_frame_profile_keys w w' k F Hin). now apply Hk.
Qed.

Lemma provisioned_keeps_dirs (root : string) (rest : list (option string))
    (b : bool) (w : World) (p : string) (t : Z) :
  fs w !! p = Some (Dir t) ->
  exists t', fs (warned b (provisioned root rest w)) !! p = Some (Dir t').
Proof.
  intros Hp.
  destruct (warned_frame b (provisioned root rest w)) as (_ & _ & _ & -> & _).
  unfold provisioned, set_tempDir, set_creations, set_temp_supply, set_fs. cbn [fs].
  destruct (decide (root = p)) as [->|Hne].
  - eexists. apply lookup_insert_eq.
  - exists t. now rewrite lookup_insert_ne.
Qed.

Lemma InitializeSafeMode_invariant (force : bool) (w : World) :
  scratch_invariant w ->
  exists w', InitializeSafeMode force w = Ok tt w' /\ scratch_invariant w'.
Proof.
  intros Hinv.
  destruct (InitializeSafeMode_cases force w)
    as (b & w0 & w1 & w' & Hb & _ & F & Hrun & Hout).
  exists w'. split; [exact Hrun|].
  pose proof (scratch_invariant_marker_frame w w1 Hinv F) as [Hp1 Hm1 Hk1].
  pose proof F as [_ _ _ _ Hc1 _ _ _ _].
  destruct Hout as [Hbf -> | Hbf _ Ht _ _ Hfs _ Hc _ _ | root rest Hbf Hs Hreb].
  - now split.
  - split.
    + now rewrite Ht.
    + intros p Hin. rewrite Hfs. apply Hm1. now rewrite Hc1, <- Hc.
    + intros d k Hlive. now rewrite Ht in Hlive.
  - destruct Hreb as [_ Ht _ _ _ (new & Hc & Hn & Hnew) Hkey _ Hfs].
    destruct (warned_frame b (provisioned root rest w1))
      as (_ & _ & Ht2 & _ & _ & Hc2 & _).
    rewrite Ht2 in Ht. rewrite Hc2 in Hc.
    unfold provisioned, set_tempDir in Ht, Hc. cbn [tempDir mkpath_calls] in Ht, Hc.
    unfold set_creations, set_temp_supply, set_fs in Hc. cbn [mkpath_calls] in Hc.
    split.
    + now rewrite Ht.
    + intros p Hin. rewrite Hc in Hin. apply elem_of_app in Hin as [Hin|Hin].
      * destruct (Hm1 p Hin) as [t Hdir].
        destruct (provisioned_keeps_dirs root rest b w1 p t Hdir) as [t' Hdir'].
        exists t'. now apply Hfs.
      * now apply Hnew.
    + intros d k Hlive Hin. rewrite Ht in Hlive. injection Hlive as <-. cbn [path].
      split; [now apply Hkey|].
      assert (Hp : profile_path root k ∈ map fst new).
      { rewrite Hn. apply list_elem_of_In, in_map, list_elem_of_In, Hin. }
      apply list_elem_of_In, in_map_iff in Hp as ([p ok] & Hfst & Hp).
      simpl in Hfst. subst p. exists ok. rewrite Hc.
      apply elem_of_app. right. now apply list_elem_of_In.
Qed.

Lemma run_invariant (cs : list call) (w : World) :
  no_Destruct cs = true ->
  scratch_invariant w ->
  exists answers w', run cs w = Ok answers w' /\ scratch_invariant w'.
Proof.
  revert w. induction cs as [|c cs IH]; intros w Hnd Hinv.
  - exists [], w. now split.
  - simpl in Hnd. apply andb_prop in Hnd as [Hc Hnd].
    assert (Hstep : exists a w1, exec c w = Ok a w1 /\ scratch_invariant w1).
    { destruct c as [force| | |]; simpl in Hc; try discriminate.
      - destruct (InitializeSafeMode_invariant force w Hinv) as (w1 & Hrun & Hinv1).
        exists [], w1. split; [|exact Hinv1].
        unfold exec, bind. now rewrite Hrun.
      - destruct (BootUpComplete_eq w) as (w1 & Hrun & F & _).
        exists [], w1. split; [|now apply (scratch_invariant_marker_frame w)].
        unfold exec, bind. now rewrite Hrun.
      - exists [if tempDir w is nullptr then false else true], w.
        split; [|exact Hinv].
        unfold exec, bind, SafeModeEnabled, tempDir_to_bool.
        now destruct (tempDir w). }
    destruct Hstep as (a & w1 & Hex & Hinv1).
    destruct (IH w1 Hnd Hinv1) as (rest & w' & Hrun & Hinv').
    exists (a ++ rest), w'. split; [|exact Hinv'].
    cbn [run]. unfold bind at 1. rewrite Hex. unfold bind at 1. now rewrite Hrun.
Qed.

(** C3, as amended: in a process that started without a scratch root and has
    not called [Destruct], whenever [SafeModeEnabled] answers true the
    pointer holds a live scratch root, and every one of the six profile
    keys UserAppData, UserConfigPath, UserCachePath, AppTempPath,
    UserMacroPath and UserHomePath resolves to [<root><sep><key><sep>]: a
    path under the scratch root that ends with the separator, for which
    [mkpath] was called, and which names a directory on disk if [mkpath]
    reported success for it. *)
Theorem redirection_while_enabled (cs : list call) (w : World) :
  tempDir w = nullptr ->
  mkpath_calls w = [] ->
  no_Destruct cs = true ->
  exists (answers : list bool) (w' : World),
    run cs w = Ok answers w' /\
    (SafeModeEnabled w' = Ok true w' ->
     exists d : QTemporaryDir,
       tempDir w' = live d /\
       forall k,
         k ∈ ["UserAppData"; "UserConfigPath"; "UserCachePath";
              "AppTempPath"; "UserMacroPath"; "UserHomePath"] ->
         exists p : string,
           Config w' !! k = Some p /\
           p = ((path d +:+ PATHSEP) +:+ k) +:+ PATHSEP /\
           String.prefix (path d +:+ PATHSEP) p = true /\
           (exists stem, p = stem +:+ PATHSEP) /\
           (exists ok, (p, ok) ∈ mkpath_calls w') /\
           ((p, true) ∈ mkpath_calls w' -> exists t, fs w' !! p = Some (Dir t))).
Proof.
  intros Hnull Hcalls Hnd.
  assert (Hinv : scratch_invariant w).
  { split.
    - now rewrite Hnull.
    - intros p Hin. rewrite Hcalls in Hin. inversion Hin.
    - intros d k Hlive. now rewrite Hnull in Hlive. }
  destruct (run_invariant cs w Hnd Hinv) as (answers & w' & Hrun & [Hp Hm Hk]).
  exists answers, w'. split; [exact Hrun|].
  unfold SafeModeEnabled, tempDir_to_bool.
  destruct (tempDir w') as [|d|] eqn:Ht; try discriminate; [|contradiction].
  intros _. exists d. split; [reflexivity|].
  intros k Hin. destruct (Hk d k eq_refl Hin) as [Hcfg Hok].
  exists (profile_path (path d) k).
  split; [exact Hcfg|]. split; [reflexivity|].
  split; [|split; [|split; [exact Hok|apply Hm]]].
  - unfold profile_path. rewrite string_app_assoc. apply prefix_app.
  - unfold profile_path. eexists. reflexivity.
Qed.

(** ** The controller does not fall back by itself *)

Lemma warned_clock (b : bool) (w : World) :
  clock (warned b w) = clock w /\ creations (warned b w) = creations w.
Proof. now destruct b. Qed.

Lemma SafeModeEnabled_eq (w : World) : SafeModeEnabled w = Ok (enabled w) w.
Proof. unfold SafeModeEnabled, tempDir_to_bool, enabled. now destruct (tempDir w). Qed.

Lemma InitializeSafeMode_pointer (force : bool) (w : World) :
  exists w', InitializeSafeMode force w = Ok tt w' /\
    ((tempDir w' = tempDir w /\ creations w' = creations w) \/
     (tempDir w' = nullptr /\ creations w' = creations w ++ [false]) \/
     (enabled w' = true /\ creations w' = creations w ++ [true])).
Proof.
  destruct (InitializeSafeMode_cases force w)
    as (b & w0 & w1 & w' & _ & _ & F & Hrun & Hout).
  exists w'. split; [exact Hrun|].
  pose proof F as [_ Ht _ _ _ Hk _ _ _].
  destruct Hout as [Hbf -> | Hbf Hf Ht' _ _ _ _ _ _ Hk' | root rest Hbf Hsup Hreb].
  - now left.
  - right. now left.
  - right. right.
    destruct Hreb as [_ Ht' _ _ Hk' _ _ _ _].
    destruct (warned_frame b (provisioned root rest w1))
      as (_ & _ & Ht2 & _).
    destruct (warned_clock b (provisioned root rest w1)) as (_ & Hk2).
    unfold enabled. rewrite Ht', Ht2, Hk', Hk2.
    unfold provisioned, set_tempDir, set_creations. cbn [tempDir creations].
    now rewrite Hk.
Qed.

Lemma run_cons (c : call) (cs : list call) (w w1 w' : World) (a rest : list bool) :
  exec c w = Ok a w1 -> run cs w1 = Ok rest w' ->
  run (c :: cs) w = Ok (a ++ rest) w'.
Proof.
  intros Hex Hrun. cbn [run]. unfold bind at 1. rewrite Hex.
  unfold bind at 1. now rewrite Hrun.
Qed.

(** What a sequence without [Destruct] does to the answers of
    [SafeModeEnabled], with the requests for a temporary directory it
    made. *)
Lemma run_attempts (cs : list call) (w : World) :
  no_Destruct cs = true ->
  exists (answers : list bool) (w' : World) (attempts : list bool),
    run cs w = Ok answers w' /\
    creations w' = creations w ++ attempts /\
    (forallb id attempts = true ->
       sticky answers = true /\ (enabled w = true -> forallb id answers = true)) /\
    ((count_Initialize cs <= 1)%nat -> enabled w = false -> sticky answers = true) /\
    (count_Initialize cs = 0%nat ->
       sticky answers = true /\ (enabled w = true -> forallb id answers = true)).
Proof.
  revert w. induction cs as [|c cs IH]; intros w Hnd.
  - exists [], w, []. rewrite app_nil_r. now repeat split.
  - simpl in Hnd. apply andb_prop in Hnd as [Hc Hnd].
    destruct c as [force| | |]; simpl in Hc; try discriminate;
      cbn [count_Initialize is_Initialize].
    + destruct (InitializeSafeMode_pointer force w) as (w1 & Hrun & Hcases).
      destruct (IH w1 Hnd) as (answers & w' & attempts & Hr & Hk & Hall & Hone & Hzero).
      assert (Hrun' : run (CInitializeSafeMode force :: cs) w = Ok answers w').
      { apply (run_cons _ _ w w1 w' [] answers); [|exact Hr].
        unfold exec, bind. now rewrite Hrun. }
      destruct Hcases as [[Ht Hk1] | [[Ht Hk1] | [Hen Hk1]]].
      * exists answers, w', attempts. split; [exact Hrun'|].
        split; [now rewrite Hk, Hk1|]. split; [|split].
        -- intros Hs. destruct (Hall Hs) as [Hst Hen]. split; [exact Hst|].
           intros He. apply Hen. unfold enabled in *. now rewrite Ht.
        -- intros Hle _. apply Hzero. lia.
        -- intros Hz. lia.
      * exists answers, w', (false :: attempts). split; [exact Hrun'|].
        split; [now rewrite Hk, Hk1, <- app_assoc|]. split; [|split].
        -- discriminate.
        -- intros Hle _. apply Hzero. lia.
        -- intros Hz. lia.
      * exists answers, w', (true :: attempts). split; [exact Hrun'|].
        split; [now rewrite Hk, Hk1, <- app_assoc|]. split; [|split].
        -- cbn [forallb id andb]. intros Hs. destruct (Hall Hs) as [Hst Hen'].
           split; [exact Hst|]. intros _. now apply Hen'.
        -- intros Hle _. apply Hzero. lia.
        -- intros Hz. lia.
    + destruct (BootUpComplete_eq w) as (w1 & Hrun & [_ Ht _ _ _ Hk1 _ _ _] & _).
      destruct (IH w1 Hnd) as (answers & w' & attempts & Hr & Hk & Hall & Hone & Hzero).
      assert (Hen : enabled w1 = enabled w) by (unfold enabled; now rewrite Ht).
      rewrite Hen in *.
      exists answers, w', attempts. split.
      { apply (run_cons _ _ w w1 w' [] answers); [|exact Hr].
        unfold exec, bind. now rewrite Hrun. }
      split; [now rewrite Hk, Hk1|]. split; [exact Hall|]. split; [exact Hone|exact Hzero].
    + destruct (IH w Hnd) as (answers & w' & attempts & Hr & Hk & Hall & Hone & Hzero).
      exists (enabled w :: answers), w', attempts. split.
      { apply (run_cons _ _ w w w' [enabled w] answers); [|exact Hr].
        unfold exec, bind. now rewrite SafeModeEnabled_eq. }
      split; [exact Hk|]. split; [|split].
      * intros Hs. destruct (Hall Hs) as [Hst Hen].
        destruct (enabled w); simpl; auto.
      * intros Hle Hoff. rewrite Hoff. simpl. now apply Hone.
      * intros Hz. destruct (Hzero Hz) as [Hst Hen].
        destruct (enabled w); simpl; auto.
Qed.

(** C5, as amended: in a process that starts without a scratch root, take
    any sequence of calls to [InitializeSafeMode], [BootUpComplete] and
    [SafeModeEnabled].  It runs to its end.  If [InitializeSafeMode] occurs
    in it at most once, or if every request for a temporary directory made
    while it ran succeeded, then once [SafeModeEnabled] has answered true
    every later call of it answers true. *)
Theorem SafeModeEnabled_sticky (cs : list call) (w : World) :
  tempDir w = nullptr ->
  no_Destruct cs = true ->
  exists (answers : list bool) (w' : World) (attempts : list bool),
    run cs w = Ok answers w' /\
    creations w' = creations w ++ attempts /\
    ((count_Initialize cs <= 1)%nat \/ forallb id attempts = true ->
     sticky answers = true).
Proof.
  intros Hnull Hnd.
  destruct (run_attempts cs w Hnd)
    as (answers & w' & attempts & Hr & Hk & Hall & Hone & _).
  exists answers, w', attempts. split; [exact Hr|]. split; [exact Hk|].
  intros [Hle|Hs].
  - apply Hone; [exact Hle|]. unfold enabled. now rewrite Hnull.
  - now apply Hall.
Qed.

(** ** Teardown *)

Lemma Destruct_null (w : World) : tempDir w = nullptr -> Destruct w = Ok tt w.
Proof. intros H. unfold Destruct, delete_tempDir. now rewrite H. Qed.

Lemma Destruct_live (w : World) (d : QTemporaryDir) :
  tempDir w = live d ->
  exists w', Destruct w = Ok tt w' /\ tempDir w' = dangling.
Proof.
  intros H. unfold Destruct, delete_tempDir, bind, destroy_QTemporaryDir.
  rewrite H. destruct (isValid d); eexists; split; reflexivity.
Qed.

Lemma Destruct_dangling (w : World) : tempDir w = dangling -> Destruct w = Undefined.
Proof. intros H. unfold Destruct, delete_tempDir. now rewrite H. Qed.

Lemma Destruct_twice_live (w : World) (d : QTemporaryDir) :
  tempDir w = live d -> (Destruct >> Destruct) w = Undefined.
Proof.
  intros H. destruct (Destruct_live w d H) as (w' & Hrun & Hd).
  unfold bind. rewrite Hrun. now apply Destruct_dangling.
Qed.

(** ** The end of startup *)

(** X1: [BootUpComplete] can be called again at no cost: a second call
    right after the first changes nothing at all.  The first call leaves
    the configuration, the controller and the diagnostic channel alone and
    touches the disk at the marker path only. *)
Theorem BootUpComplete_idempotent (w : World) :
  exists w1 : World,
    BootUpComplete w = Ok tt w1 /\
    BootUpComplete w1 = Ok tt w1 /\
    Config w1 = Config w /\ tempDir w1 = tempDir w /\
    diagnostics w1 = diagnostics w /\
    (forall p, p <> marker_path w -> fs w1 !! p = fs w !! p).
Proof.
  unfold BootUpComplete, bind, ret. rewrite _getBootFailDetectionFileName_eq.
  unfold Qt.QFile_remove.
  destruct (fs w !! marker_path w) as [[t text|t]|] eqn:E.
  - destruct (may_remove (env w) (marker_path w)) eqn:Hrm.
    + eexists. split; [reflexivity|]. split.
      * rewrite _getBootFailDetectionFileName_eq.
        unfold marker_path at 1 2, set_fs; cbn [env fs].
        fold (marker_path w). now rewrite lookup_delete_eq.
      * cbn. repeat split. intros p Hp. now rewrite lookup_delete_ne.
    + exists w. split; [reflexivity|]. split; [|now repeat split].
      rewrite _getBootFailDetectionFileName_eq. now rewrite E, Hrm.
  - exists w. split; [reflexivity|]. split; [|now repeat split].
    rewrite _getBootFailDetectionFileName_eq. now rewrite E.
  - exists w. split; [reflexivity|]. split; [|now repeat split].
    rewrite _getBootFailDetectionFileName_eq. now rewrite E.
Qed.

(** X2: where the marker may be removed, no regular file is left at the
    marker path after [BootUpComplete], and the marker test run on the
    world it leaves answers false and changes nothing, except that the
    clock goes on when the test looked at it. *)
Theorem BootUpComplete_clears_detection (w : World) :
  may_remove (env w) (marker_path w) = true ->
  exists w1 : World,
    BootUpComplete w = Ok tt w1 /\
    (forall t text, fs w1 !! marker_path w1 <> Some (File t text)) /\
    exists w2 : World,
      _didBootFailRecently w1 = Ok false w2 /\ (w2 = w1 \/ w2 = tick w1).
Proof.
  intros Hrm. unfold BootUpComplete, bind, ret.
  rewrite _getBootFailDetectionFileName_eq. unfold Qt.QFile_remove.
  destruct (fs w !! marker_path w) as [[t text|t]|] eqn:E.
  - rewrite Hrm. eexists. split; [reflexivity|].
    assert (Hgone : fs (set_fs (delete (marker_path w) (fs w)) w)
                      !! marker_path (set_fs (delete (marker_path w) (fs w)) w) = None).
    { unfold marker_path at 2, set_fs; cbn [env fs].
      fold (marker_path w). apply lookup_delete_eq. }
    split; [intros t' text'; now rewrite Hgone|].
    eexists. split; [now apply _didBootFailRecently_absent|now left].
  - exists w. split; [reflexivity|]. split; [intros t' text'; now rewrite E|].
    exists (tick w). split; [now apply (_didBootFailRecently_Dir w t)|now right].
  - exists w. split; [reflexivity|]. split; [intros t' text'; now rewrite E|].
    exists w. split; [now apply _didBootFailRecently_absent|now left].
Qed.

(** ** Reading twice *)

Lemma touch_touch (w : World) : touch (touch w) = touch w.
Proof.
  unfold touch at 1. rewrite Config_touch, touch_lookup_BuildRevision.
  reflexivity.
Qed.

(** X7: computing the build identity a second time gives the same string
    and changes nothing: whatever [_bootFileContent] inserts, it inserts at
    the first call. *)
Theorem _bootFileContent_stable (w : World) :
  exists (s : string) (w1 : World),
    _bootFileContent w = Ok s w1 /\
    _bootFileContent w1 = Ok s w1.
Proof.
  exists (build_identity (Config w)), (touch w).
  split; [apply _bootFileContent_eq|].
  rewrite _bootFileContent_eq, touch_touch, Config_touch, build_identity_touch.
  reflexivity.
Qed.

Lemma fresh_in_ms (t now : Z) :
  negb (secsTo (Some t) (Some now) >? 12 * secondsPerHour) =
  (now - t <? (12 * 3600 + 1) * 1000).
Proof.
  unfold secondsPerHour.
  destruct (Z.gtb_spec (secsTo (Some t) (Some now)) (12 * 3600)) as [Hgt|Hle];
    destruct (Z.ltb_spec (now - t) ((12 * 3600 + 1) * 1000)) as [Hlt|Hge];
    try reflexivity; exfalso.
  - apply secsTo_le_12h in Hlt. lia.
  - apply secsTo_le_12h in Hle. lia.
Qed.

(** The marker test on a regular file that can be read. *)
Lemma marker_test_readable (w : World) (t : Z) (bytes : string) :
  fs w !! marker_path w = Some (File t bytes) ->
  may_read (env w) (marker_path w) = true ->
  exists w' : World,
    _didBootFailRecently w =
      Ok ((clock w - t <? (12 * 3600 + 1) * 1000)
          && QString_eqb (read_as_text bytes)
                         (fromStdString codec (build_identity (Config w))))
         w' /\
    (w' = tick w \/ w' = touch (tick w)).
Proof.
  intros E Hr. rewrite (_didBootFailRecently_present w _ E), Hr.
  cbn [node_lastModified]. rewrite <- fresh_in_ms.
  destruct (secsTo (Some t) (Some (clock w)) >? 12 * secondsPerHour).
  - exists (tick w). auto.
  - unfold bind, ret. rewrite _bootFileContent_eq.
    destruct (tick_frame w) as (_ & -> & _).
    exists (touch (tick w)). cbn [negb andb]. split; [|auto].
    now destruct (QString_eqb _ _).
Qed.

(** X8: the marker test reads the disk and never writes it, and leaves the
    controller and the diagnostic channel alone.  Run again on the world it
    left, it can give another answer only through the clock: the two
    answers differ only if a regular file is at the marker path and its
    last modification lies within twelve hours and 999 milliseconds of one
    of the two looks at the clock and not of the other. *)
Theorem _didBootFailRecently_repeatable (w : World) :
  exists (b b' : bool) (w1 w2 : World),
    _didBootFailRecently w = Ok b w1 /\
    _didBootFailRecently w1 = Ok b' w2 /\
    fs w1 = fs w /\ fs w2 = fs w /\
    tempDir w2 = tempDir w /\ diagnostics w2 = diagnostics w /\
    (b' = b \/
     exists (t : Z) (bytes : string),
       fs w !! marker_path w = Some (File t bytes) /\
       (clock w - t <? (12 * 3600 + 1) * 1000) <>
       (clock w1 - t <? (12 * 3600 + 1) * 1000)).
Proof.
  assert (Hany : forall v, exists b v1, _didBootFailRecently v = Ok b v1 /\
            fs v1 = fs v /\ tempDir v1 = tempDir v /\ diagnostics v1 = diagnostics v /\
            env v1 = env v).
  { intros v. destruct (tick_frame v) as (He & _ & Ht & Hfs & _ & Hd & _).
    destruct (touch_frame (tick v)) as (He' & Ht' & Hfs' & _ & Hd' & _).
    destruct (marker_test_world v) as (b & [H|[H|H]]);
      eexists _, _; (split; [exact H|]); repeat split; congruence. }
  destruct (fs w !! marker_path w) as [[t bytes|t]|] eqn:E.
  - destruct (may_read (env w) (marker_path w)) eqn:Hr.
    + destruct (marker_test_readable w t bytes E Hr) as (w1 & H1 & Hw1).
      assert (Hf1 : env w1 = env w /\ fs w1 = fs w /\
                    build_identity (Config w1) = build_identity (Config w) /\
                    tempDir w1 = tempDir w /\ diagnostics w1 = diagnostics w).
      { destruct (tick_frame w) as (He & Hc & Ht & Hfs & _ & Hd & _).
        destruct (touch_frame (tick w)) as (He' & Ht' & Hfs' & _ & Hd' & _).
        destruct Hw1 as [-> | ->].
        - rewrite Hc. auto.
        - rewrite Config_touch, build_identity_touch, Hc.
          repeat split; congruence. }
      destruct Hf1 as (He1 & Hfs1 & Hid1 & Ht1 & Hd1).
      assert (Hp1 : marker_path w1 = marker_path w) by now apply marker_path_env.
      destruct (marker_test_readable w1 t bytes) as (w2 & H2 & Hw2).
      { now rewrite Hp1, Hfs1. }
      { now rewrite Hp1, He1. }
      destruct (Hany w1) as (b2 & v2 & H2' & Hfs2 & Ht2 & Hd2 & _).
      rewrite H2 in H2'. injection H2' as <- <-.
      eexists _, _, w1, w2. split; [exact H1|]. split; [exact H2|].
      split; [exact Hfs1|]. split; [congruence|]. split; [congruence|].
      split; [congruence|]. rewrite Hid1.
      destruct (clock w - t <? (12 * 3600 + 1) * 1000) eqn:F1;
        destruct (clock w1 - t <? (12 * 3600 + 1) * 1000) eqn:F2;
        try (left; reflexivity);
        right; exists t, bytes; (split; [reflexivity|rewrite F1, F2; discriminate]).
    + pose proof (_didBootFailRecently_unreadable w t bytes E Hr) as H1.
      destruct (tick_frame w) as (He & _ & Ht & Hfs & _ & Hd & _).
      assert (H2 : _didBootFailRecently (tick w) = Ok false (tick (tick w))).
      { apply (_didBootFailRecently_unreadable (tick w) t bytes).
        - now rewrite marker_path_tick, Hfs.
        - now rewrite marker_path_tick, He. }
      destruct (tick_frame (tick w)) as (_ & _ & Ht' & Hfs' & _ & Hd' & _).
      exists false, false, (tick w), (tick (tick w)).
      repeat split; try assumption; try congruence. now left.
  - pose proof (_didBootFailRecently_Dir w t E) as H1.
    destruct (tick_frame w) as (He & _ & Ht & Hfs & _ & Hd & _).
    assert (H2 : _didBootFailRecently (tick w) = Ok false (tick (tick w))).
    { apply (_didBootFailRecently_Dir (tick w) t).
      now rewrite marker_path_tick, Hfs. }
    destruct (tick_frame (tick w)) as (_ & _ & Ht' & Hfs' & _ & Hd' & _).
    exists false, false, (tick w), (tick (tick w)).
    repeat split; try assumption; try congruence. now left.
  - pose proof (_didBootFailRecently_absent w E) as H1.
    exists false, false, w, w. repeat split; try assumption. now left.
Qed.

(** ** Requesting the scratch root *)

(** X6: [_createTemporaryBaseDir] is defined whatever [tempDir] held before,
    a dangling pointer included, because it overwrites the pointer before
    it reads it.  Its result says whether the temporary directory was
    created and is the answer [SafeModeEnabled] gives afterwards; one
    request is used up; on failure the pointer is null, also if it pointed
    to a scratch root before, and the disk is as it was. *)
Theorem _createTemporaryBaseDir_result (w : World) :
  exists (b : bool) (w' : World),
    _createTemporaryBaseDir w = Ok b w' /\
    b = negb (provisioner_fails w) /\
    SafeModeEnabled w' = Ok b w' /\
    temp_supply w' = tail (temp_supply w) /\
    Config w' = Config w /\
    diagnostics w' = diagnostics w /\
    (b = false -> tempDir w' = nullptr /\ fs w' = fs w).
Proof.
  destruct (provisioner_fails w) eqn:Hf.
  - destruct (_createTemporaryBaseDir_fail w Hf)
      as (w' & Hrun & Ht & _ & Hc & Hfs & Hd & _ & Hs & _).
    exists false, w'. split; [exact Hrun|]. split; [reflexivity|].
    split; [unfold SafeModeEnabled, tempDir_to_bool; now rewrite Ht|].
    rewrite Hs, Hc, Hd. repeat split; assumption.
  - unfold provisioner_fails in Hf.
    destruct (temp_supply w) as [|[root|] rest] eqn:Hs; try discriminate.
    exists true, (provisioned root rest w).
    split; [now apply _createTemporaryBaseDir_ok|].
    split; [reflexivity|].
    split; [reflexivity|]. split; [reflexivity|].
    split; [reflexivity|]. split; [reflexivity|]. discriminate.
Qed.

(** ** What the public operations do to the configuration *)

Ltac not_a_profile_key :=
  let H := fresh in
  unfold dirs; intros H;
  repeat (apply elem_of_cons in H as [H|H]; [discriminate|]);
  inversion H.

Lemma Config_step_refl (c : gmap string string) : Config_step c c.
Proof. split; auto. Qed.

Lemma Config_step_trans (c1 c2 c3 : gmap string string) :
  Config_step c1 c2 -> Config_step c2 c3 -> Config_step c1 c3.
Proof.
  intros [H1 B1] [H2 B2]. split.
  - intros k Hk Hne. now rewrite H2, H1.
  - destruct B2 as [B2|[B2 B2']].
    + rewrite B2. exact B1.
    + right. split; [|exact B2'].
      destruct B1 as [B1|[_ B1]]; congruence.
Qed.

Lemma Config_step_touch (c : gmap string string) :
  Config_step c (touch_BuildRevision c).
Proof.
  split.
  - intros k _ Hne. now apply touch_lookup_ne.
  - rewrite touch_lookup_BuildRevision.
    destruct (c !! "BuildRevision"); simpl; auto.
Qed.

Lemma marker_frame_Config_step (w w' : World) :
  marker_frame w w' -> Config_step (Config w) (Config w').
Proof.
  intros [_ _ _ _ _ _ [Hc|Hc] _ _]; rewrite Hc;
    [apply Config_step_refl | apply Config_step_touch].
Qed.

Lemma build_identity_Config_step (c c' : gmap string string) :
  Config_step c c' -> build_identity c' = build_identity c.
Proof.
  intros [H B]. unfold build_identity, space_prefixed.
  rewrite (H "BuildRevisionBranch"), (H "BuildRevisionHash");
    try discriminate; try not_a_profile_key.
  destruct B as [->|[-> ->]]; reflexivity.
Qed.

Lemma Initialize_outcome_Config_step (force b : bool) (w w1 w' : World) :
  Initialize_outcome force b w w1 w' -> Config_step (Config w1) (Config w').
Proof.
  intros [_ -> | _ _ _ _ -> _ _ _ _ _ | root rest _ _ Hreb];
    try apply Config_step_refl.
  destruct Hreb as [_ _ _ _ _ _ _ Ho _].
  destruct (warned_frame b (provisioned root rest w1)) as (_ & Hc & _).
  split.
  - intros k Hk _. now rewrite (Ho k Hk), Hc.
  - left. rewrite (Ho "BuildRevision"), Hc; [reflexivity|not_a_profile_key].
Qed.

Lemma exec_Config_step (c : call) (w w1 : World) (a : list bool) :
  exec c w = Ok a w1 -> Config_step (Config w) (Config w1).
Proof.
  destruct c as [force| | |]; unfold exec, bind, ret.
  - destruct (InitializeSafeMode_cases force w)
      as (b & w0 & w2 & w' & _ & _ & F & Hrun & Hout).
    rewrite Hrun. intros [= _ <-].
    apply (Config_step_trans _ (Config w2)).
    + now apply marker_frame_Config_step.
    + now apply (Initialize_outcome_Config_step force b w).
  - destruct (BootUpComplete_eq w) as (w' & Hrun & _ & Hc).
    rewrite Hrun. intros [= _ <-]. rewrite Hc. apply Config_step_refl.
  - rewrite SafeModeEnabled_eq. intros [= _ <-]. apply Config_step_refl.
  - unfold Destruct, delete_tempDir, bind, destroy_QTemporaryDir.
    destruct (tempDir w) as [|d|]; try discriminate.
    + intros [= _ <-]. apply Config_step_refl.
    + destruct (isValid d); intros [= _ <-]; apply Config_step_refl.
Qed.

Lemma run_cons_inv (c : call) (cs : list call) (w w' : World) (answers : list bool) :
  run (c :: cs) w = Ok answers w' ->
  exists a w1 rest,
    exec c w = Ok a w1 /\ run cs w1 = Ok rest w' /\ answers = (a ++ rest)%list.
Proof.
  cbn [run]. unfold bind at 1.
  destruct (exec c w) as [a w1|] eqn:Hex; [|discriminate].
  unfold bind at 1. destruct (run cs w1) as [rest w2|] eqn:Hrun; [|discriminate].
  unfold ret. intros [= Ha Hw]. exists a, w1, rest. subst. auto.
Qed.

Lemma run_Config_step (cs : list call) (w w' : World) (answers : list bool) :
  run cs w = Ok answers w' -> Config_step (Config w) (Config w').
Proof.
  revert w answers. induction cs as [|c cs IH]; intros w answers.
  - intros [= _ <-]. apply Config_step_refl.
  - intros H. apply run_cons_inv in H as (a & w1 & rest & Hex & Hrun & _).
    apply (Config_step_trans _ (Config w1)).
    + now apply (exec_Config_step c w w1 a).
    + now apply (IH w1 rest).
Qed.

(** X3: however the four public operations are called, a configuration key
    other than [BuildRevision] and the six profile keys has, at the end,
    the value (or the absence) it had at the start; and [BuildRevision]
    changes at most from absent to the empty string. *)
Theorem run_leaves_other_keys (cs : list call) (w w' : World) (answers : list bool) :
  run cs w = Ok answers w' ->
  (forall k, k ∉ dirs -> k <> "BuildRevision" -> Config w' !! k = Config w !! k) /\
  (Config w' !! "BuildRevision" = Config w !! "BuildRevision" \/
   (Config w !! "BuildRevision" = None /\ Config w' !! "BuildRevision" = Some "")).
Proof. intros H. exact (run_Config_step cs w w' answers H). Qed.

(** X4: the build identity is the same at the end of any sequence of calls
    as at its start: neither the redirection of the profile keys nor the
    insertion of an empty [BuildRevision] changes what [_bootFileContent]
    returns. *)
Theorem run_keeps_build_identity (cs : list call) (w w' : World) (answers : list bool) :
  run cs w = Ok answers w' ->
  exists w1 w1' : World,
    _bootFileContent w = Ok (build_identity (Config w)) w1 /\
    _bootFileContent w' = Ok (build_identity (Config w)) w1'.
Proof.
  intros H. exists (touch w), (touch w').
  rewrite !_bootFileContent_eq.
  now rewrite (build_identity_Config_step _ _ (run_Config_step cs w w' answers H)).
Qed.

(** ** Entering safe mode *)

(** X5: after [InitializeSafeMode] the controller is on exactly when the
    marker test was positive or safe mode was forced, and the temporary
    directory could be created; when neither asked for safe mode the
    controller is as it was.  When it is on after an attempt, [tempDir]
    holds the directory the system handed out, and that directory is on
    disk. *)
Theorem InitializeSafeMode_transition (force : bool) (w : World) :
  exists (b : bool) (w0 w' : World),
    _didBootFailRecently w = Ok b w0 /\
    InitializeSafeMode force w = Ok tt w' /\
    SafeModeEnabled w' =
      Ok (if b || force then negb (provisioner_fails w) else enabled w) w' /\
    (forall root rest,
       b || force = true ->
       temp_supply w = Some root :: rest ->
       tempDir w' = live {| isValid := true; path := root |} /\
       exists t, fs w' !! root = Some (Dir t)).
Proof.
  destruct (InitializeSafeMode_cases force w)
    as (b & w0 & w1 & w' & Hb & _ & F & Hrun & Hout).
  exists b, w0, w'. split; [exact Hb|]. split; [exact Hrun|].
  rewrite SafeModeEnabled_eq.
  pose proof F as [_ Ht1 _ _ _ _ _ _ _].
  destruct Hout as [Hbf -> | Hbf Hf Ht _ _ _ _ _ _ _ | root rest Hbf Hs Hreb].
  - rewrite Hbf. split; [|discriminate].
    unfold enabled. now rewrite Ht1.
  - rewrite Hbf, Hf. split.
    + unfold enabled. now rewrite Ht.
    + intros root rest _ Hs. unfold provisioner_fails in Hf.
      now rewrite Hs in Hf.
  - destruct Hreb as [_ Ht _ _ _ _ _ _ Hfs].
    destruct (warned_frame b (provisioned root rest w1))
      as (_ & _ & Ht2 & Hfs2 & _).
    rewrite Ht2 in Ht. unfold provisioned, set_tempDir in Ht. cbn [tempDir] in Ht.
    rewrite Hbf. unfold provisioner_fails. rewrite Hs. split.
    + unfold enabled. now rewrite Ht.
    + intros root' rest' _ [= <- <-]. split; [exact Ht|].
      exists (clock w1). apply Hfs. rewrite Hfs2.
      unfold provisioned, set_tempDir, set_creations, set_temp_supply, set_fs.
      cbn [fs].
      apply lookup_insert_eq.
Qed.

(** ** The marker a launch leaves behind *)

Lemma marker_test_clock (w w0 : World) (b : bool) :
  _didBootFailRecently w = Ok b w0 ->
  clock w0 = clock w \/ clock w0 = clock (tick w).
Proof.
  intros H. destruct (touch_clock (tick w)) as (Hc & _).
  destruct (marker_test_world w) as (b' & [H'|[H'|H']]);
    rewrite H in H'; injection H' as -> ->; auto.
Qed.

Lemma Initialize_marker (force : bool) (w : World) :
  can_write_marker w = true ->
  (forall root rest, temp_supply w = Some root :: rest -> root <> marker_path w) ->
  exists (w' : World) (t : Z),
    InitializeSafeMode force w = Ok tt w' /\
    env w' = env w /\
    (t = clock w \/ t = clock (tick w)) /\
    fs w' !! marker_path w =
      Some (File t (stored (env w) (marker_path w) (marker_bytes (Config w)))).
Proof.
  intros Hcw Hroot.
  destruct (InitializeSafeMode_cases force w)
    as (b & w0 & w1 & w' & Hb & Hw1 & F & Hrun & Hout).
  exists w', (clock w0). split; [exact Hrun|].
  destruct (marker_test_frame_fs w w0 b Hb) as (He0 & Hfs0 & Hc0).
  assert (Hp0 : marker_path w0 = marker_path w) by now apply marker_path_env.
  assert (Hcw0 : can_write_marker w0 = true).
  { unfold can_write_marker in *. now rewrite Hp0, Hfs0, He0. }
  rewrite Hcw0 in Hw1.
  assert (Hid : build_identity (Config w0) = build_identity (Config w)).
  { destruct Hc0 as [->| ->]; [reflexivity|apply build_identity_touch]. }
  assert (Hm1 : fs w1 !! marker_path w =
                Some (File (clock w0)
                        (stored (env w) (marker_path w)
                                (marker_bytes (Config w))))).
  { subst w1. unfold written, set_fs, marker_bytes. cbn [fs].
    rewrite Hp0, He0, Hid. apply lookup_insert_eq. }
  pose proof F as [He1 _ _ _ _ _ _ _ _].
  split; [|split; [exact (marker_test_clock w w0 b Hb)|]].
  - destruct Hout as [_ -> | _ _ _ He _ _ _ _ _ _ | root rest _ _ Hreb].
    + exact He1.
    + congruence.
    + destruct Hreb as [He _ _ _ _ _ _ _ _].
      destruct (warned_frame b (provisioned root rest w1)) as (He2 & _).
      rewrite He, He2. exact He1.
  - destruct Hout as [_ -> | _ _ _ _ _ Hfs _ _ _ _ | root rest _ Hs Hreb].
    + exact Hm1.
    + now rewrite Hfs.
    + destruct Hreb as [_ _ _ _ _ _ _ _ Hfs].
      destruct (warned_frame b (provisioned root rest w1))
        as (_ & _ & _ & Hfs2 & _).
      apply Hfs. rewrite Hfs2.
      unfold provisioned, set_tempDir, set_creations, set_temp_supply, set_fs.
      cbn [fs].
      rewrite lookup_insert_ne; [exact Hm1|]. now apply (Hroot root rest).
Qed.

(** X9: where the marker can be opened for writing, and the system does not
    hand out the marker path itself as the temporary directory, every call
    of [InitializeSafeMode], whichever way it goes, leaves a regular file at
    the marker path, stamped with the time of the call (before or after its
    one look at the clock).  The file holds those of the bytes the stream
    made of the build identity that reached the disk, be it all of them or
    none: the write is not checked. *)
Theorem InitializeSafeMode_leaves_marker (force : bool) (w : World) :
  can_write_marker w = true ->
  (forall root rest, temp_supply w = Some root :: rest -> root <> marker_path w) ->
  exists (w' : World) (t : Z),
    InitializeSafeMode force w = Ok tt w' /\
    (t = clock w \/ t = clock (tick w)) /\
    fs w' !! marker_path w =
      Some (File t (stored (env w) (marker_path w)
                      (fromUnicode codec
                         (fromStdString codec (build_identity (Config w)))))).
Proof.
  intros Hcw Hroot.
  destruct (Initialize_marker force w Hcw Hroot) as (w' & t & Hrun & _ & Ht & Hm).
  exists w', t. split; [exact Hrun|]. split; [exact Ht|]. exact Hm.
Qed.

(** X10: a launch that never reaches [BootUpComplete] is found by a later
    one.  Let the marker be writable, and let a later process find at its
    marker path what [InitializeSafeMode] left there and be allowed to read
    it.  Its marker test then answers true exactly when its clock is less
    than twelve hours and one second past the time the marker was written,
    and those bytes of the first process that reached the disk, read back
    as text, are the build identity of the later process. *)
Theorem unfinished_boot_is_detected (force : bool) (w : World) :
  can_write_marker w = true ->
  (forall root rest, temp_supply w = Some root :: rest -> root <> marker_path w) ->
  exists (w1 : World) (t : Z),
    InitializeSafeMode force w = Ok tt w1 /\
    (t = clock w \/ t = clock (tick w)) /\
    forall w2 : World,
      fs w2 !! marker_path w2 = fs w1 !! marker_path w ->
      may_read (env w2) (marker_path w2) = true ->
      exists w3 : World,
        _didBootFailRecently w2 =
          Ok ((clock w2 - t <? (12 * 3600 + 1) * 1000)
              && QString_eqb
                   (remove_CR
                      (toUnicode codec
                         (stored (env w) (marker_path w)
                            (fromUnicode codec
                               (fromStdString codec
                                  (build_identity (Config w)))))))
                   (fromStdString codec (build_identity (Config w2))))
             w3.
Proof.
  intros Hcw Hroot.
  destruct (Initialize_marker force w Hcw Hroot) as (w1 & t & Hrun & _ & Ht & Hm).
  exists w1, t. split; [exact Hrun|]. split; [exact Ht|].
  intros w2 Hsame Hr. rewrite Hm in Hsame.
  destruct (marker_test_readable w2 t _ Hsame Hr) as (w3 & H3 & _).
  now exists w3.
Qed.

(** ** Memory safety of the life cycle *)

Lemma exec_pointer (c : call) (w : World) :
  is_Destruct c = false ->
  tempDir w <> dangling ->
  exists a w1, exec c w = Ok a w1 /\ tempDir w1 <> dangling.
Proof.
  intros Hc Hp. destruct c as [force| | |]; try discriminate.
  - destruct (InitializeSafeMode_cases force w)
      as (b & w0 & w1 & w' & _ & _ & F & Hrun & Hout).
    exists [], w'. split; [unfold exec, bind; now rewrite Hrun|].
    pose proof F as [_ Ht1 _ _ _ _ _ _ _].
    destruct Hout as [_ -> | _ _ Ht _ _ _ _ _ _ _ | root rest _ _ Hreb].
    + now rewrite Ht1.
    + now rewrite Ht.
    + destruct Hreb as [_ Ht _ _ _ _ _ _ _].
      destruct (warned_frame b (provisioned root rest w1)) as (_ & _ & Ht2 & _).
      now rewrite Ht, Ht2.
  - destruct (BootUpComplete_eq w) as (w1 & Hrun & [_ Ht _ _ _ _ _ _ _] & _).
    exists [], w1. split; [unfold exec, bind; now rewrite Hrun|].
    now rewrite Ht.
  - exists [enabled w], w. split; [|exact Hp].
    unfold exec, bind. now rewrite SafeModeEnabled_eq.
Qed.

Lemma run_pointer (cs : list call) (w : World) :
  no_Destruct cs = true ->
  tempDir w <> dangling ->
  exists answers w', run cs w = Ok answers w' /\ tempDir w' <> dangling.
Proof.
  revert w. induction cs as [|c cs IH]; intros w Hnd Hp.
  - now exists [], w.
  - simpl in Hnd. apply andb_prop in Hnd as [Hc Hnd].
    apply negb_true_iff in Hc.
    destruct (exec_pointer c w Hc Hp) as (a & w1 & Hex & Hp1).
    destruct (IH w1 Hnd Hp1) as (rest & w' & Hrun & Hp').
    exists (a ++ rest), w'. split; [|exact Hp'].
    now apply (run_cons c cs w w1 w').
Qed.

Lemma run_app (cs cs' : list call) (w w1 w2 : World) (a a' : list bool) :
  run cs w = Ok a w1 -> run cs' w1 = Ok a' w2 ->
  run (cs ++ cs') w = Ok (a ++ a') w2.
Proof.
  revert w a. induction cs as [|c cs IH]; intros w a.
  - intros [= <- <-]. auto.
  - intros H H'. apply run_cons_inv in H as (a1 & w0 & rest & Hex & Hrun & ->).
    rewrite <- app_comm_cons, <- app_assoc.
    apply (run_cons c _ w w0 w2); [exact Hex|]. now apply IH.
Qed.

(** X11: the prescribed life cycle never runs into undefined behaviour.
    From a pointer that does not dangle (null at process start), any
    sequence of calls of [InitializeSafeMode], [BootUpComplete] and
    [SafeModeEnabled], in any order and number, followed by one [Destruct],
    runs to its end: no call dereferences [tempDir] while it is null or
    dangling, and the one [delete] meets a null or a live pointer. *)
Theorem life_cycle_is_defined (cs : list call) (w : World) :
  tempDir w <> dangling ->
  no_Destruct cs = true ->
  exists (answers : list bool) (w' : World),
    run (cs ++ [CDestruct]) w = Ok answers w' /\
    (tempDir w' = nullptr \/ tempDir w' = dangling).
Proof.
  intros Hp Hnd.
  destruct (run_pointer cs w Hnd Hp) as (answers & w1 & Hrun & Hp1).
  assert (Hd : exists w', Destruct w1 = Ok tt w' /\
                 (tempDir w' = nullptr \/ tempDir w' = dangling)).
  { destruct (tempDir w1) as [|d|] eqn:Ht; [| |contradiction].
    - exists w1. split; [now apply Destruct_null|now left].
    - destruct (Destruct_live w1 d Ht) as (w' & Hrun' & Ht').
      exists w'. split; [exact Hrun'|now right]. }
  destruct Hd as (w' & Hrun' & Hend).
  exists (answers ++ []), w'. split; [|exact Hend].
  apply (run_app cs [CDestruct] w w1 w'); [exact Hrun|].
  cbn [run]. unfold bind at 1, exec, bind at 1. rewrite Hrun'. reflexivity.
Qed.

(** ** The scratch tree *)

Lemma string_length_app (s t : string) :
  String.length (s +:+ t) = (String.length s + String.length t)%nat.
Proof.
  induction s as [|a s IH]; [reflexivity|].
  rewrite string_app_cons. simpl. now rewrite IH.
Qed.

Lemma string_app_inv_tail (s1 s2 t : string) : s1 +:+ t = s2 +:+ t -> s1 = s2.
Proof.
  revert s2. induction s1 as [|a s1 IH]; intros [|b s2] H.
  - reflexivity.
  - exfalso. apply (f_equal String.length) in H.
    rewrite !string_length_app in H. simpl in H. lia.
  - exfalso. apply (f_equal String.length) in H.
    rewrite !string_length_app in H. simpl in H. lia.
  - rewrite !string_app_cons in H. injection H as -> H.
    f_equal. now apply IH.
Qed.

Lemma profile_path_inj (root k k' : string) :
  profile_path root k = profile_path root k' -> k = k'.
Proof.
  unfold profile_path. intros H.
  apply string_app_inv_tail in H.
  now apply (inj (String.append (root +:+ PATHSEP))) in H.
Qed.

Lemma profile_path_in_tree (root k : string) :
  in_tree root PATHSEP (profile_path root k) = true.
Proof.
  unfold in_tree, profile_path. rewrite string_app_assoc, prefix_app.
  apply orb_true_r.
Qed.

(** X12: [_replaceDirs] gives every profile key a directory of its own
    below the scratch root: after it ran, no two of the six keys
    UserAppData, UserConfigPath, UserCachePath, AppTempPath, UserMacroPath
    and UserHomePath resolve to the same path, and the path each of them
    resolves to lies in the tree of the scratch root. *)
Theorem _replaceDirs_separates_the_keys (w : World) (d : QTemporaryDir) :
  tempDir w = live d ->
  exists w' : World,
    _replaceDirs w = Ok tt w' /\
    (forall k k' p,
       k ∈ ["UserAppData"; "UserConfigPath"; "UserCachePath";
            "AppTempPath"; "UserMacroPath"; "UserHomePath"] ->
       k' ∈ ["UserAppData"; "UserConfigPath"; "UserCachePath";
             "AppTempPath"; "UserMacroPath"; "UserHomePath"] ->
       Config w' !! k = Some p -> Config w' !! k' = Some p -> k = k') /\
    (forall k p,
       k ∈ ["UserAppData"; "UserConfigPath"; "UserCachePath";
            "AppTempPath"; "UserMacroPath"; "UserHomePath"] ->
       Config w' !! k = Some p -> in_tree (path d) PATHSEP p = true).
Proof.
  intros Ht. rewrite (_replaceDirs_live w d Ht).
  destruct (rebind_loop (path d) dirs w)
    as (w' & Hrun & [_ _ _ _ _ _ Hk _ _]).
  exists w'. split; [exact Hrun|]. split.
  - intros k k' p Hin Hin' H H'.
    rewrite (Hk k Hin) in H. rewrite (Hk k' Hin') in H'.
    apply (profile_path_inj (path d)). congruence.
  - intros k p Hin H. rewrite (Hk k Hin) in H. injection H as <-.
    apply profile_path_in_tree.
Qed.

(** ** Teardown and the configuration *)

Lemma Destruct_Config (w w' : World) :
  Destruct w = Ok tt w' -> Config w' = Config w.
Proof.
  unfold Destruct, delete_tempDir, bind, destroy_QTemporaryDir.
  destruct (tempDir w) as [|d|]; try discriminate.
  - now intros [= <-].
  - destruct (isValid d); now intros [= <-].
Qed.

(** X13: [Destruct] can be repeated exactly when safe mode was never on.
    From a [tempDir] that does not dangle, two calls of [Destruct] in a row
    are defined if and only if [tempDir] was null, and then they change
    nothing at all; with a scratch root held, the first call runs and the
    second is undefined, because the first leaves the pointer as it is. *)
Theorem Destruct_repeatable_iff (w : World) :
  tempDir w <> dangling ->
  ((Destruct >> Destruct) w <> Undefined <-> tempDir w = nullptr) /\
  (tempDir w = nullptr -> (Destruct >> Destruct) w = Ok tt w) /\
  (forall d : QTemporaryDir,
     tempDir w = live d ->
     exists w1 : World,
       Destruct w = Ok tt w1 /\ tempDir w1 = dangling /\ Destruct w1 = Undefined).
Proof.
  intros Hnd.
  assert (Hnull : tempDir w = nullptr -> (Destruct >> Destruct) w = Ok tt w).
  { intros E. unfold bind. now rewrite (Destruct_null w E), (Destruct_null w E). }
  split; [split|split; [exact Hnull|]].
  - intros H. destruct (tempDir w) as [|d|] eqn:E; [reflexivity| |contradiction].
    exfalso. apply H. exact (Destruct_twice_live w d E).
  - intros E. now rewrite (Hnull E).
  - intros d E. destruct (Destruct_live w d E) as (w1 & H1 & Hd).
    exists w1. split; [exact H1|]. split; [exact Hd|]. now apply Destruct_dangling.
Qed.

(** X16: [Destruct] does not undo the redirection.  In a process that
    started without a scratch root, after any calls of the other three
    operations [Destruct] runs and leaves the configuration as it is: if
    safe mode was on, each of the six profile keys UserAppData,
    UserConfigPath, UserCachePath, AppTempPath, UserMacroPath and
    UserHomePath still resolves to [<root><sep><key><sep>] below the scratch
    root that was just given up. *)
Theorem Destruct_leaves_keys_redirected (cs : list call) (w : World) :
  tempDir w = nullptr ->
  mkpath_calls w = [] ->
  no_Destruct cs = true ->
  exists (answers : list bool) (w1 w2 : World),
    run cs w = Ok answers w1 /\
    Destruct w1 = Ok tt w2 /\
    Config w2 = Config w1 /\
    (SafeModeEnabled w1 = Ok true w1 ->
     exists d : QTemporaryDir,
       tempDir w1 = live d /\
       tempDir w2 = dangling /\
       forall k,
         k ∈ ["UserAppData"; "UserConfigPath"; "UserCachePath";
              "AppTempPath"; "UserMacroPath"; "UserHomePath"] ->
         Config w2 !! k = Some (((path d +:+ PATHSEP) +:+ k) +:+ PATHSEP)).
Proof.
  intros Hnull Hcalls Hnd.
  assert (Hinv : scratch_invariant w).
  { split.
    - now rewrite Hnull.
    - intros p Hin. rewrite Hcalls in Hin. inversion Hin.
    - intros d k Hlive. now rewrite Hnull in Hlive. }
  destruct (run_invariant cs w Hnd Hinv) as (answers & w1 & Hrun & [Hp _ Hk]).
  exists answers, w1.
  destruct (tempDir w1) as [|d|] eqn:Ht; [| |contradiction].
  - exists w1. split; [exact Hrun|]. split; [now apply Destruct_null|].
    split; [reflexivity|].
    unfold SafeModeEnabled, tempDir_to_bool. now rewrite Ht.
  - destruct (Destruct_live w1 d Ht) as (w2 & Hrun2 & Hd).
    pose proof (Destruct_Config w1 w2 Hrun2) as Hc.
    exists w2. split; [exact Hrun|]. split; [exact Hrun2|]. split; [exact Hc|].
    intros _. exists d. split; [reflexivity|]. split; [exact Hd|].
    intros k Hin. rewrite Hc. now apply (Hk d k).
Qed.

(** ** Writing the marker *)

(** X14: what [_createBootFile] does to the disk.  Where the marker path
    is a directory or may not be opened for writing, the world is left
    exactly as it was: a directory at the marker path is never replaced,
    and the build identity is not even computed.  Where the open succeeds,
    the marker is a regular file stamped with the current time that holds
    those of the bytes the stream made of the build identity that reached
    the disk: all of them when the write went through, and none, an empty
    marker, when nothing could be written, because the write is not
    checked.  No other path on disk changes, nor the controller, nor the
    diagnostic channel. *)
Theorem _createBootFile_effect (w : World) :
  exists w' : World,
    _createBootFile w = Ok tt w' /\
    (can_write_marker w = false -> w' = w) /\
    (can_write_marker w = true ->
       fs w' !! marker_path w =
         Some (File (clock w)
                 (stored (env w) (marker_path w)
                    (fromUnicode codec
                       (fromStdString codec (build_identity (Config w))))))) /\
    (can_write_marker w = true ->
     stored (env w) (marker_path w)
       (fromUnicode codec (fromStdString codec (build_identity (Config w)))) = "" ->
       fs w' !! marker_path w = Some (File (clock w) "")) /\
    (forall t, fs w !! marker_path w = Some (Dir t) -> w' = w) /\
    (forall p, p <> marker_path w -> fs w' !! p = fs w !! p) /\
    tempDir w' = tempDir w /\ diagnostics w' = diagnostics w.
Proof.
  pose proof (_createBootFile_frame w _ (_createBootFile_eq w))
    as [_ Ht _ Hd _ _ _ _ Hfs].
  eexists. split; [apply _createBootFile_eq|].
  split; [now intros ->|]. split; [|split; [|split; [|auto]]].
  - intros ->. unfold written, set_fs, marker_bytes. cbn [fs].
    apply lookup_insert_eq.
  - intros -> Hs. unfold written, set_fs, marker_bytes. cbn [fs].
    rewrite Hs. apply lookup_insert_eq.
  - intros t E. unfold can_write_marker. now rewrite E.
Qed.

(** ** A boot that completes *)

Lemma InitializeSafeMode_env (force : bool) (w : World) :
  exists w', InitializeSafeMode force w = Ok tt w' /\ env w' = env w.
Proof.
  destruct (InitializeSafeMode_cases force w)
    as (b & w0 & w1 & w' & _ & _ & [He1 _ _ _ _ _ _ _ _] & Hrun & Hout).
  exists w'. split; [exact Hrun|].
  destruct Hout as [_ -> | _ _ _ He _ _ _ _ _ _ | root rest _ _ Hreb].
  - exact He1.
  - congruence.
  - destruct Hreb as [He _ _ _ _ _ _ _ _].
    destruct (warned_frame b (provisioned root rest w1)) as (He2 & _).
    rewrite He, He2. exact He1.
Qed.

(** X15: a launch that reaches [BootUpComplete] is not taken for a failed
    one.  Where the marker may be removed, after [InitializeSafeMode] and
    then [BootUpComplete] no regular file is at the marker path, and the
    marker test of any later process that finds at its marker path what
    these two calls left there answers false and changes nothing, except
    that the clock goes on when the test looked at it. *)
Theorem completed_boot_is_not_detected (force : bool) (w : World) :
  may_remove (env w) (marker_path w) = true ->
  exists w1 w2 : World,
    InitializeSafeMode force w = Ok tt w1 /\
    BootUpComplete w1 = Ok tt w2 /\
    (forall t text, fs w2 !! marker_path w <> Some (File t text)) /\
    forall w3 : World,
      fs w3 !! marker_path w3 = fs w2 !! marker_path w ->
      exists w4 : World,
        _didBootFailRecently w3 = Ok false w4 /\ (w4 = w3 \/ w4 = tick w3).
Proof.
  intros Hrm.
  destruct (InitializeSafeMode_env force w) as (w1 & Hrun & He).
  assert (Hp : marker_path w1 = marker_path w) by now apply marker_path_env.
  assert (Hrm1 : may_remove (env w1) (marker_path w1) = true) by now rewrite Hp, He.
  exists w1.
  assert (Hb : exists w2, BootUpComplete w1 = Ok tt w2 /\
                 forall t text, fs w2 !! marker_path w <> Some (File t text)).
  { unfold BootUpComplete, bind, ret. rewrite _getBootFailDetectionFileName_eq.
    unfold Qt.QFile_remove. rewrite Hp in *.
    destruct (fs w1 !! marker_path w) as [[t text|t]|] eqn:E.
    - rewrite Hrm1. eexists. split; [reflexivity|]. intros t' text'.
      unfold set_fs. cbn [fs]. now rewrite lookup_delete_eq.
    - exists w1. split; [reflexivity|]. intros t' text'. now rewrite E.
    - exists w1. split; [reflexivity|]. intros t' text'. now rewrite E. }
  destruct Hb as (w2 & Hrun2 & Hgone).
  exists w2. split; [exact Hrun|]. split; [exact Hrun2|]. split; [exact Hgone|].
  intros w3 Hsame.
  destruct (fs w2 !! marker_path w) as [[t text|t]|] eqn:E.
  - now destruct (Hgone t text).
  - exists (tick w3). split; [now apply (_didBootFailRecently_Dir w3 t)|now right].
  - exists w3. split; [now apply _didBootFailRecently_absent|now left].
Qed.

End SafeMode.

(** ** The statements at concrete worlds *)

(** C1 as stated fails in both directions it takes the body and the age
    in: the marker below is more than twelve hours old (by 999
    milliseconds) and its body, the build identity followed by a carriage
    return, is not byte-equal to the build identity, yet the marker test
    answers true.  The age is measured in whole seconds, and the body is
    read in text mode. *)
Lemma marker_with_CR_past_twelve_hours :
  exists (t : Z) (body : string) (w' : World),
    fs Scenario.late_with_CR !! marker_path "/" Scenario.late_with_CR
      = Some (File t body) /\
    _bootFileContent Scenario.late_with_CR
      = Ok "1.0 main cafef00d" Scenario.late_with_CR /\
    body <> "1.0 main cafef00d" /\
    clock Scenario.late_with_CR - t > 12 * 3600 * 1000 /\
    _didBootFailRecently "/" Scenario.latin1 Scenario.late_with_CR = Ok true w'.
Proof.
  do 3 eexists. split; [vm_compute; reflexivity|].
  split; [vm_compute; reflexivity|].
  split; [discriminate|].
  split; [vm_compute; reflexivity|].
  vm_compute; reflexivity.
Qed.

(** Forced safe mode where no temporary directory is to be had. *)
Lemma InitializeSafeMode_without_scratch_root_witness :
  provisioner_fails Scenario.no_scratch = true /\
  tempDir Scenario.no_scratch = nullptr /\
  exists w' : World,
    InitializeSafeMode "/" Scenario.latin1 true Scenario.no_scratch = Ok tt w' /\
    SafeModeEnabled w' = Ok false w' /\
    (forall k, k ∈ dirs -> Config w' !! k = Config Scenario.no_scratch !! k) /\
    diagnostics w' = diagnostics Scenario.no_scratch.
Proof.
  split; [reflexivity|]. split; [reflexivity|].
  apply (InitializeSafeMode_without_scratch_root "/" Scenario.latin1 true
           Scenario.no_scratch);
    reflexivity.
Defined.

(** The rebinder on a live scratch root below which nothing can be
    created. *)
Lemma _replaceDirs_writes_every_key_witness :
  tempDir Scenario.provisioned_only =
    live {| isValid := true; path := Scenario.scratch |} /\
  exists (w' : World) (new : list (string * bool)),
    _replaceDirs "/" Scenario.provisioned_only = Ok tt w' /\
    mkpath_calls w' = mkpath_calls Scenario.provisioned_only ++ new /\
    map fst new =
      map (profile_path "/" Scenario.scratch)
        ["UserAppData"; "UserConfigPath"; "UserCachePath";
         "AppTempPath"; "UserMacroPath"; "UserHomePath"] /\
    (forall k,
       k ∈ ["UserAppData"; "UserConfigPath"; "UserCachePath";
            "AppTempPath"; "UserMacroPath"; "UserHomePath"] ->
       Config w' !! k = Some (((Scenario.scratch +:+ "/") +:+ k) +:+ "/")) /\
    (forall k,
       k ∉ ["UserAppData"; "UserConfigPath"; "UserCachePath";
            "AppTempPath"; "UserMacroPath"; "UserHomePath"] ->
       Config w' !! k = Config Scenario.provisioned_only !! k) /\
    tempDir w' = live {| isValid := true; path := Scenario.scratch |} /\
    SafeModeEnabled w' = Ok true w'.
Proof.
  split; [reflexivity|].
  apply (_replaceDirs_writes_every_key "/" Scenario.provisioned_only
           {| isValid := true; path := Scenario.scratch |}).
  reflexivity.
Defined.

(** The marker test on a marker exactly twelve hours old. *)
Lemma freshness_threshold_witness :
  exists (b : bool) (w' : World),
    _didBootFailRecently "/" Scenario.latin1 Scenario.twelve_hours_old = Ok b w' /\
    (b = false <->
       secsTo (Some (1700000000000 - 12 * 3600 * 1000))
              (Some (clock Scenario.twelve_hours_old)) > 12 * 3600) /\
    (b = false ->
       clock Scenario.twelve_hours_old - (1700000000000 - 12 * 3600 * 1000)
         > 12 * 3600 * 1000) /\
    (clock Scenario.twelve_hours_old - (1700000000000 - 12 * 3600 * 1000)
       = 12 * 3600 * 1000 -> b = true) /\
    (clock Scenario.twelve_hours_old < 1700000000000 - 12 * 3600 * 1000 ->
       b = true).
Proof.
  apply (freshness_threshold "/" Scenario.latin1 Scenario.twelve_hours_old
           (1700000000000 - 12 * 3600 * 1000) "1.0 main cafef00d");
    vm_compute; reflexivity.
Defined.

(** A clean run of a build whose configuration has no [BuildRevision]. *)
Lemma BuildRevision_is_default_inserted_witness :
  Config Scenario.anonymous_build !! "BuildRevision" = None /\
  exists w' : World,
    InitializeSafeMode "/" Scenario.latin1 false Scenario.anonymous_build
      = Ok tt w' /\
    Config w' = <["BuildRevision" := ""]> (Config Scenario.anonymous_build) /\
    tempDir w' = tempDir Scenario.anonymous_build.
Proof.
  split; [reflexivity|].
  destruct (BuildRevision_is_default_inserted "/" Scenario.latin1
              Scenario.anonymous_build)
    as (_ & _ & _ & H); [reflexivity|].
  apply H; reflexivity.
Defined.

(** Forced safe mode on a clean system, then the end of startup. *)
Lemma redirection_while_enabled_witness :
  exists (answers : list bool) (w' : World),
    run "/" Scenario.latin1
        [CInitializeSafeMode true; CBootUpComplete; CSafeModeEnabled]
        Scenario.clean = Ok answers w' /\
    (SafeModeEnabled w' = Ok true w' ->
     exists d : QTemporaryDir,
       tempDir w' = live d /\
       forall k,
         k ∈ ["UserAppData"; "UserConfigPath"; "UserCachePath";
              "AppTempPath"; "UserMacroPath"; "UserHomePath"] ->
         exists p : string,
           Config w' !! k = Some p /\
           p = ((path d +:+ "/") +:+ k) +:+ "/" /\
           String.prefix (path d +:+ "/") p = true /\
           (exists stem, p = stem +:+ "/") /\
           (exists ok, (p, ok) ∈ mkpath_calls w') /\
           ((p, true) ∈ mkpath_calls w' -> exists t, fs w' !! p = Some (Dir t))).
Proof.
  apply (redirection_while_enabled "/" Scenario.latin1
           [CInitializeSafeMode true; CBootUpComplete; CSafeModeEnabled]
           Scenario.clean); reflexivity.
Defined.

(** C3 as stated fails where a directory cannot be created: safe mode is
    on, [UserAppData] resolves to a path below the scratch root, and
    nothing exists at that path. *)
Lemma redirected_key_without_directory :
  exists w' : World,
    run "/" Scenario.latin1 [CInitializeSafeMode true; CSafeModeEnabled]
        Scenario.mkdir_refused
      = Ok [true] w' /\
    tempDir w' = live {| isValid := true; path := Scenario.scratch |} /\
    Config w' !! "UserAppData" = Some "/tmp/FreeCAD-Xa81Qz/UserAppData/" /\
    fs w' !! "/tmp/FreeCAD-Xa81Qz/UserAppData/" = None.
Proof.
  eexists. split; [vm_compute; reflexivity|].
  repeat split; vm_compute; reflexivity.
Qed.

(** Two calls of [InitializeSafeMode], the second of which has no reason to
    create a temporary directory: the one creation made succeeds, and the
    answers stay true although no further directory was to be had. *)
Lemma SafeModeEnabled_sticky_witness :
  exists (answers : list bool) (w' : World),
    run "/" Scenario.latin1
        [CInitializeSafeMode true; CSafeModeEnabled; CBootUpComplete;
         CInitializeSafeMode false; CSafeModeEnabled]
        Scenario.one_scratch_only = Ok answers w' /\
    creations w' = [true] /\
    sticky answers = true.
Proof.
  destruct (SafeModeEnabled_sticky "/" Scenario.latin1
              [CInitializeSafeMode true; CSafeModeEnabled; CBootUpComplete;
               CInitializeSafeMode false; CSafeModeEnabled]
              Scenario.one_scratch_only)
    as (answers & w' & attempts & Hrun & Hcr & Hst); [reflexivity|reflexivity|].
  exists answers, w'. split; [exact Hrun|].
  assert (Hw : creations w' = [true]).
  { vm_compute in Hrun. now injection Hrun as _ <-. }
  split; [exact Hw|].
  apply Hst. right.
  rewrite Hw in Hcr. simpl in Hcr. now rewrite <- Hcr.
Defined.

(** C5 as stated fails for a sequence without [Destruct] in which
    [InitializeSafeMode] is called a second time and gets no temporary
    directory: [SafeModeEnabled] answers true, then false. *)
Lemma SafeModeEnabled_falls_back :
  no_Destruct [CInitializeSafeMode true; CSafeModeEnabled;
               CInitializeSafeMode true; CSafeModeEnabled] = true /\
  exists w' : World,
    run "/" Scenario.latin1
        [CInitializeSafeMode true; CSafeModeEnabled;
         CInitializeSafeMode true; CSafeModeEnabled]
        Scenario.one_scratch_only = Ok [true; false] w' /\
    creations w' = [true; false] /\
    sticky [true; false] = false.
Proof.
  split; [reflexivity|].
  eexists. split; [vm_compute; reflexivity|].
  split; [vm_compute; reflexivity | reflexivity].
Qed.

(** C4: with safe mode on, the first [Destruct] deletes the scratch root and
    leaves [tempDir] dangling; the second deletes through the dangling
    pointer, which is undefined behaviour and not a no-op. *)
Theorem Destruct_twice_is_undefined :
  exists w1 w2 : World,
    InitializeSafeMode "/" Scenario.latin1 true Scenario.clean = Ok tt w1 /\
    SafeModeEnabled w1 = Ok true w1 /\
    Destruct "/" w1 = Ok tt w2 /\
    tempDir w2 = dangling /\
    Destruct "/" w2 = Undefined.
Proof.
  do 2 eexists.
  split; [vm_compute; reflexivity|].
  split; [vm_compute; reflexivity|].
  split; [vm_compute; reflexivity|].
  split; reflexivity.
Qed.

(** ** The scenarios of the specification and some more, run *)

(** A clean run: the marker appears with the build identity, safe mode stays
    off, and [BootUpComplete] removes the marker again. *)
Example clean_run :
  exists w1 w2 : World,
    InitializeSafeMode "/" Scenario.latin1 false Scenario.clean = Ok tt w1 /\
    fs w1 !! Scenario.marker = Some (File 1700000000000 "1.0 main cafef00d") /\
    SafeModeEnabled w1 = Ok false w1 /\
    diagnostics w1 = [] /\
    BootUpComplete "/" w1 = Ok tt w2 /\
    fs w2 !! Scenario.marker = None.
Proof.
  do 2 eexists. split; [vm_compute; reflexivity|].
  split; [vm_compute; reflexivity|].
  split; [vm_compute; reflexivity|].
  split; [vm_compute; reflexivity|].
  split; vm_compute; reflexivity.
Qed.

(** A detected crash: one warning, safe mode on, keys redirected. *)
Example detected_crash :
  exists w1 : World,
    InitializeSafeMode "/" Scenario.latin1 false Scenario.crashed = Ok tt w1 /\
    SafeModeEnabled w1 = Ok true w1 /\
    diagnostics w1 = [warning] /\
    Config w1 !! "UserMacroPath" = Some "/tmp/FreeCAD-Xa81Qz/UserMacroPath/" /\
    fs w1 !! "/tmp/FreeCAD-Xa81Qz/UserMacroPath/" = Some (Dir 1700000000000).
Proof.
  eexists. split; [vm_compute; reflexivity|].
  repeat split; vm_compute; reflexivity.
Qed.

(** A stale marker and a marker of another build are ignored, and
    overwritten. *)
Example stale_marker_ignored :
  exists w1 : World,
    InitializeSafeMode "/" Scenario.latin1 false Scenario.stale = Ok tt w1 /\
    SafeModeEnabled w1 = Ok false w1 /\
    diagnostics w1 = [] /\
    fs w1 !! Scenario.marker = Some (File 1700000000000 "1.0 main cafef00d").
Proof.
  eexists. split; [vm_compute; reflexivity|].
  repeat split; vm_compute; reflexivity.
Qed.

Example other_build_ignored :
  exists w1 : World,
    InitializeSafeMode "/" Scenario.latin1 false Scenario.other_build = Ok tt w1 /\
    SafeModeEnabled w1 = Ok false w1 /\
    diagnostics w1 = [].
Proof.
  eexists. split; [vm_compute; reflexivity|].
  repeat split; vm_compute; reflexivity.
Qed.

(** The rebinder where every [mkpath] fails: six failed requests in the
    order of [dirs], six keys written. *)
Example _replaceDirs_when_mkpath_fails :
  exists w1 : World,
    _replaceDirs "/" Scenario.provisioned_only = Ok tt w1 /\
    mkpath_calls w1 =
      [ ("/tmp/FreeCAD-Xa81Qz/UserAppData/", false);
        ("/tmp/FreeCAD-Xa81Qz/UserConfigPath/", false);
        ("/tmp/FreeCAD-Xa81Qz/UserCachePath/", false);
        ("/tmp/FreeCAD-Xa81Qz/AppTempPath/", false);
        ("/tmp/FreeCAD-Xa81Qz/UserMacroPath/", false);
        ("/tmp/FreeCAD-Xa81Qz/UserHomePath/", false) ] /\
    Config w1 !! "UserHomePath" = Some "/tmp/FreeCAD-Xa81Qz/UserHomePath/" /\
    fs w1 !! "/tmp/FreeCAD-Xa81Qz/UserHomePath/" = None /\
    SafeModeEnabled w1 = Ok true w1.
Proof.
  eexists. split; [vm_compute; reflexivity|].
  repeat split; vm_compute; reflexivity.
Qed.

(** A marker 12 hours and 999 milliseconds old still counts as 12 hours
    old: [secsTo] drops the fraction of a second. *)
Example secsTo_truncates :
  secsTo (Some 0) (Some (12 * 3600 * 1000 + 999)) = 12 * 3600 /\
  secsTo (Some 0) (Some (12 * 3600 * 1000 + 1000)) = 12 * 3600 + 1 /\
  secsTo (Some 5000) (Some 0) = -5.
Proof. repeat split. Qed.

(** The marker test repeated 200 milliseconds later, across the threshold:
    true, then false. *)
Example threshold_crossed_between_two_tests :
  exists w1 w2 : World,
    _didBootFailRecently "/" Scenario.latin1 Scenario.at_the_threshold
      = Ok true w1 /\
    clock w1 = clock Scenario.at_the_threshold + 200 /\
    _didBootFailRecently "/" Scenario.latin1 w1 = Ok false w2.
Proof.
  do 2 eexists. split; [vm_compute; reflexivity|].
  split; vm_compute; reflexivity.
Qed.

(** On a full disk the marker is created empty, and a launch that never
    completes is not found by the next one. *)
Example empty_marker_on_a_full_disk :
  exists w1 w2 : World,
    InitializeSafeMode "/" Scenario.latin1 false Scenario.full = Ok tt w1 /\
    fs w1 !! Scenario.marker = Some (File 1700000000000 "") /\
    _didBootFailRecently "/" Scenario.latin1 w1 = Ok false w2.
Proof.
  do 2 eexists. split; [vm_compute; reflexivity|].
  split; vm_compute; reflexivity.
Qed.

(** ** The further properties at concrete worlds *)

(** The end of startup after a crash left its marker. *)
Lemma BootUpComplete_clears_detection_witness :
  may_remove (env Scenario.crashed) (marker_path "/" Scenario.crashed) = true /\
  exists w1 : World,
    BootUpComplete "/" Scenario.crashed = Ok tt w1 /\
    (forall t text, fs w1 !! marker_path "/" w1 <> Some (File t text)) /\
    exists w2 : World,
      _didBootFailRecently "/" Scenario.latin1 w1 = Ok false w2 /\
      (w2 = w1 \/ w2 = tick w1).
Proof.
  split; [reflexivity|].
  apply (BootUpComplete_clears_detection "/" Scenario.latin1 Scenario.crashed).
  reflexivity.
Defined.

(** A whole life cycle in forced safe mode: a key of the host is left
    alone. *)
Lemma run_leaves_other_keys_witness :
  exists (answers : list bool) (w' : World),
    run "/" Scenario.latin1 [CInitializeSafeMode true; CBootUpComplete; CDestruct]
        Scenario.clean = Ok answers w' /\
    Config w' !! "BuildRevisionHash" = Config Scenario.clean !! "BuildRevisionHash".
Proof.
  do 2 eexists. split; [vm_compute; reflexivity|].
  refine (proj1 (run_leaves_other_keys "/" Scenario.latin1
            [CInitializeSafeMode true; CBootUpComplete; CDestruct]
            Scenario.clean _ _ _) "BuildRevisionHash" _ _).
  - vm_compute; reflexivity.
  - unfold dirs. intros H.
    repeat (apply elem_of_cons in H as [H|H]; [discriminate|]). inversion H.
  - discriminate.
Defined.

(** The build identity before and after a detected crash. *)
Lemma run_keeps_build_identity_witness :
  exists (answers : list bool) (w' w1 w1' : World),
    run "/" Scenario.latin1 [CInitializeSafeMode false; CSafeModeEnabled]
        Scenario.crashed
      = Ok answers w' /\
    _bootFileContent Scenario.crashed = Ok "1.0 main cafef00d" w1 /\
    _bootFileContent w' = Ok "1.0 main cafef00d" w1'.
Proof.
  do 2 eexists.
  assert (H : run "/" Scenario.latin1 [CInitializeSafeMode false; CSafeModeEnabled]
                Scenario.crashed = Ok _ _) by (vm_compute; reflexivity).
  destruct (run_keeps_build_identity "/" Scenario.latin1 _ _ _ _ H)
    as (w1 & w1' & H1 & H2).
  exists w1, w1'. split; [exact H|]. split; [exact H1 | exact H2].
Defined.

(** A clean start leaves the marker of this build. *)
Lemma InitializeSafeMode_leaves_marker_witness :
  can_write_marker "/" Scenario.clean = true /\
  exists (w' : World) (t : Z),
    InitializeSafeMode "/" Scenario.latin1 true Scenario.clean = Ok tt w' /\
    (t = clock Scenario.clean \/ t = clock (tick Scenario.clean)) /\
    fs w' !! Scenario.marker = Some (File t "1.0 main cafef00d").
Proof.
  split; [reflexivity|].
  apply (InitializeSafeMode_leaves_marker "/" Scenario.latin1 true Scenario.clean).
  - reflexivity.
  - intros root rest [= <- _]. vm_compute. discriminate.
Defined.

(** A clean start, never completed, as a later process sees it. *)
Lemma unfinished_boot_is_detected_witness :
  exists (w1 : World) (t : Z),
    InitializeSafeMode "/" Scenario.latin1 false Scenario.clean = Ok tt w1 /\
    (t = clock Scenario.clean \/ t = clock (tick Scenario.clean)) /\
    forall w2 : World,
      fs w2 !! marker_path "/" w2 = fs w1 !! marker_path "/" Scenario.clean ->
      may_read (env w2) (marker_path "/" w2) = true ->
      exists w3 : World,
        _didBootFailRecently "/" Scenario.latin1 w2 =
          Ok ((clock w2 - t <? (12 * 3600 + 1) * 1000)
              && QString_eqb (Scenario.units "1.0 main cafef00d")
                   (Scenario.units (build_identity (Config w2))))
             w3.
Proof.
  apply (unfinished_boot_is_detected "/" Scenario.latin1 false Scenario.clean).
  - reflexivity.
  - intros root rest [= <- _]. vm_compute. discriminate.
Defined.

(** A clean start, completed. *)
Lemma completed_boot_is_not_detected_witness :
  exists w1 w2 : World,
    InitializeSafeMode "/" Scenario.latin1 false Scenario.clean = Ok tt w1 /\
    BootUpComplete "/" w1 = Ok tt w2 /\
    (forall t text, fs w2 !! marker_path "/" Scenario.clean <> Some (File t text)) /\
    forall w3 : World,
      fs w3 !! marker_path "/" w3 = fs w2 !! marker_path "/" Scenario.clean ->
      exists w4 : World,
        _didBootFailRecently "/" Scenario.latin1 w3 = Ok false w4 /\
        (w4 = w3 \/ w4 = tick w3).
Proof.
  apply (completed_boot_is_not_detected "/" Scenario.latin1 false Scenario.clean).
  reflexivity.
Defined.

(** Two calls of [InitializeSafeMode] and the end of startup, then
    teardown. *)
Lemma life_cycle_is_defined_witness :
  exists (answers : list bool) (w' : World),
    run "/" Scenario.latin1
        ([CInitializeSafeMode true; CSafeModeEnabled;
          CInitializeSafeMode false; CBootUpComplete] ++ [CDestruct])
        Scenario.one_scratch_only = Ok answers w' /\
    (tempDir w' = nullptr \/ tempDir w' = dangling).
Proof.
  apply (life_cycle_is_defined "/" Scenario.latin1
           [CInitializeSafeMode true; CSafeModeEnabled;
            CInitializeSafeMode false; CBootUpComplete]
           Scenario.one_scratch_only).
  - discriminate.
  - reflexivity.
Defined.

(** The rebinder on a live scratch root: six keys, six directories. *)
Lemma _replaceDirs_separates_the_keys_witness :
  exists w' : World,
    _replaceDirs "/" Scenario.provisioned_only = Ok tt w' /\
    (forall k k' p,
       k ∈ ["UserAppData"; "UserConfigPath"; "UserCachePath";
            "AppTempPath"; "UserMacroPath"; "UserHomePath"] ->
       k' ∈ ["UserAppData"; "UserConfigPath"; "UserCachePath";
             "AppTempPath"; "UserMacroPath"; "UserHomePath"] ->
       Config w' !! k = Some p -> Config w' !! k' = Some p -> k = k') /\
    (forall k p,
       k ∈ ["UserAppData"; "UserConfigPath"; "UserCachePath";
            "AppTempPath"; "UserMacroPath"; "UserHomePath"] ->
       Config w' !! k = Some p -> in_tree Scenario.scratch "/" p = true).
Proof.
  apply (_replaceDirs_separates_the_keys "/" Scenario.provisioned_only
           {| isValid := true; path := Scenario.scratch |}).
  reflexivity.
Defined.

(** Teardown, twice, in a process that never entered safe mode. *)
Lemma Destruct_repeatable_iff_witness :
  tempDir Scenario.clean <> dangling /\
  ((Destruct "/" >> Destruct "/") Scenario.clean <> Undefined <->
     tempDir Scenario.clean = nullptr) /\
  (tempDir Scenario.clean = nullptr ->
     (Destruct "/" >> Destruct "/") Scenario.clean = Ok tt Scenario.clean) /\
  (forall d : QTemporaryDir,
     tempDir Scenario.clean = live d ->
     exists w1 : World,
       Destruct "/" Scenario.clean = Ok tt w1 /\ tempDir w1 = dangling /\
       Destruct "/" w1 = Undefined).
Proof.
  split; [discriminate|].
  apply (Destruct_repeatable_iff "/" Scenario.clean). discriminate.
Defined.

(** Forced safe mode, then teardown. *)
Lemma Destruct_leaves_keys_redirected_witness :
  exists (answers : list bool) (w1 w2 : World),
    run "/" Scenario.latin1 [CInitializeSafeMode true; CBootUpComplete]
        Scenario.clean
      = Ok answers w1 /\
    Destruct "/" w1 = Ok tt w2 /\
    Config w2 = Config w1 /\
    (SafeModeEnabled w1 = Ok true w1 ->
     exists d : QTemporaryDir,
       tempDir w1 = live d /\
       tempDir w2 = dangling /\
       forall k,
         k ∈ ["UserAppData"; "UserConfigPath"; "UserCachePath";
              "AppTempPath"; "UserMacroPath"; "UserHomePath"] ->
         Config w2 !! k = Some (((path d +:+ "/") +:+ k) +:+ "/")).
Proof.
  apply (Destruct_leaves_keys_redirected "/" Scenario.latin1
           [CInitializeSafeMode true; CBootUpComplete] Scenario.clean);
    reflexivity.
Defined.
